(** * deep-research-py: question generation, translation, search gateway
      and combined-query framing

    A shallow embedding of
      - [deep_research_py/translate.py]      ([translate_to_english]),
      - [deep_research_py/search_engine.py]  ([Firecrawl.search], [Tavily.search]),
      - [deep_research_py/feedback.py]       ([generate_feedback]),
      - [deep_research_py/app.py]            ([ResearchSession], answer filtering).

    Python values are dynamically typed, so the embedding carries a small
    universe [pyval] of run-time values together with the dynamic operations
    the sources use ([.get], subscripting, iteration, [getattr], truthiness).
    Code that may raise lives in a monad that threads a chronological trace
    of observable events (provider calls, model calls, log lines, prints) and
    keeps the trace when an exception escapes, as the interpreter does. *)

From Stdlib Require Import String Ascii Bool Arith NArith ZArith QArith Lia List.
Import ListNotations.

Local Close Scope Q_scope.
Local Open Scope nat_scope.
Local Open Scope list_scope.

(** ** Python strings *)

(** A Python [str] is a sequence of Unicode code points. *)
Definition codepoint := N.
Definition pystr := list codepoint.

Definition pystr_eq_dec : forall a b : pystr, {a = b} + {a <> b} :=
  list_eq_dec N.eq_dec.

Definition pystr_eqb (a b : pystr) : bool :=
  if pystr_eq_dec a b then true else false.

(** Source literals.  [py] reads an ASCII literal the way the Python lexer
    does for the only escape the sources use: backslash-n is a line feed. *)
Fixpoint py_chars (cs : list ascii) : pystr :=
  match cs with
  | [] => []
  | "\"%char :: "n"%char :: rest => 10%N :: py_chars rest
  | c :: rest => N_of_ascii c :: py_chars rest
  end.

Definition py (s : string) : pystr := py_chars (list_ascii_of_string s).

(** [sep.join(parts)] *)
Fixpoint join (sep : pystr) (parts : list pystr) : pystr :=
  match parts with
  | [] => []
  | [p] => p
  | p :: rest => p ++ sep ++ join sep rest
  end.

(** ** Python values *)

#[local] Set Warnings "-register-all,-abstract-large-number".

Inductive pyval : Type :=
| PNone
| PBool (b : bool)
| PInt (n : Z)
| PStr (s : pystr)
| PList (items : list pyval)
| PDict (entries : list (pystr * pyval))   (* str-keyed dict, in insertion order *)
| PObj (attrs : list (pystr * pyval)).     (* an SDK object carrying data attributes *)

(** Lookup in the entries of a dict or the attributes of an object. *)
Fixpoint lookup (k : pystr) (entries : list (pystr * pyval)) : option pyval :=
  match entries with
  | [] => None
  | (k', v) :: rest => if pystr_eqb k k' then Some v else lookup k rest
  end.

(** [bool(v)] *)
Definition truthy (v : pyval) : bool :=
  match v with
  | PNone => false
  | PBool b => b
  | PInt n => negb (n =? 0)%Z
  | PStr s => match s with [] => false | _ => true end
  | PList l => match l with [] => false | _ => true end
  | PDict d => match d with [] => false | _ => true end
  | PObj _ => true
  end.

(** [isinstance(v, dict)] and [isinstance(v, list)] *)
Definition isinstance_dict (v : pyval) : bool :=
  match v with PDict _ => true | _ => false end.

Definition isinstance_list (v : pyval) : bool :=
  match v with PList _ => true | _ => false end.

(** ** Exceptions *)

(** The classes that the modelled code can meet.  All of them derive from
    [Exception]; [SDKError] stands for whatever a provider SDK raises
    (connection errors, HTTP status errors, time-outs, ...). *)
Inductive exn_class : Type :=
| JSONDecodeError
| AttributeError
| TypeError
| KeyError
| IndexError
| SDKError.

Record exn : Type := mkExn { exn_cls : exn_class; exn_msg : pystr }.

Definition exn_class_eqb (a b : exn_class) : bool :=
  match a, b with
  | JSONDecodeError, JSONDecodeError
  | AttributeError, AttributeError
  | TypeError, TypeError
  | KeyError, KeyError
  | IndexError, IndexError
  | SDKError, SDKError => true
  | _, _ => false
  end.

(** What an [except] clause matches. *)
Inductive except_clause : Type :=
| Except_Exception            (* except Exception *)
| Except_JSONDecodeError.     (* except json.JSONDecodeError *)

Definition catches (c : except_clause) (e : exn) : bool :=
  match c with
  | Except_Exception => true
  | Except_JSONDecodeError => exn_class_eqb (exn_cls e) JSONDecodeError
  end.

Inductive outcome (A : Type) : Type :=
| Normal (a : A)
| Raise (e : exn).

Arguments Normal {A} a.
Arguments Raise {A} e.

Definition raises {A} (o : outcome A) : bool :=
  match o with Normal _ => false | Raise _ => true end.

(** ** Dynamic operations *)

(** [v.get(key, default)] *)
Definition py_get (v : pyval) (key : pystr) (default : pyval) : outcome pyval :=
  match v with
  | PDict d => Normal (match lookup key d with Some x => x | None => default end)
  | _ => Raise (mkExn AttributeError (py "object has no attribute 'get'"))
  end.

(** [v[key]] for a [str] key *)
Definition py_getitem (v : pyval) (key : pystr) : outcome pyval :=
  match v with
  | PDict d => match lookup key d with
               | Some x => Normal x
               | None => Raise (mkExn KeyError key)
               end
  | _ => Raise (mkExn TypeError (py "indices must be integers or object is not subscriptable"))
  end.

(** [key in v] for a dict [v] *)
Definition py_in_dict (key : pystr) (v : pyval) : bool :=
  match v with
  | PDict d => match lookup key d with Some _ => true | None => false end
  | _ => false
  end.

(** The items a [for] loop or a comprehension visits. *)
Definition py_iter (v : pyval) : outcome (list pyval) :=
  match v with
  | PList l => Normal l
  | PDict d => Normal (map (fun kv => PStr (fst kv)) d)
  | PStr s => Normal (map (fun c => PStr [c]) s)
  | _ => Raise (mkExn TypeError (py "object is not iterable"))
  end.

(** [getattr(v, name, default)] for the names the sources ask for ([url],
    [markdown], [content], [title], [metadata]): SDK objects carry them as
    data attributes; a [str] answers [title] with its bound method, an
    object of its own that is true; no other value has any of them. *)
Definition py_getattr (v : pyval) (name : pystr) (default : pyval) : pyval :=
  match v with
  | PObj attrs => match lookup name attrs with Some x => x | None => default end
  | PStr _ => if pystr_eqb name (py "title") then PObj [] else default
  | _ => default
  end.

(** [a + b] where the sources concatenate strings. *)
Definition py_add (a b : pyval) : outcome pyval :=
  match a, b with
  | PStr x, PStr y => Normal (PStr (x ++ y))
  | _, _ => Raise (mkExn TypeError (py "unsupported operand type(s) for +"))
  end.

(** ** Requests sent to the external collaborators *)

(** One chat message: [{"role": ..., "content": ...}]. *)
Record chat_message : Type := mkMessage { role : pystr; content : pystr }.

(** The keyword arguments of [openai_client.chat.completions.create]. *)
Record chat_request : Type := mkChatRequest {
  model : pystr;
  messages : list chat_message;
  temperature : option Q;
  top_p : option Q;
  response_format : pystr                     (* the "type" of response_format *)
}.

(** What the sources read from a completion:
    [response.choices[0].message.content], an optional string. *)
Record chat_response : Type := mkChatResponse {
  choices : list (option pystr)               (* content of each choice's message *)
}.

(** The keyword arguments of [FirecrawlApp.search] as the wrapper passes them. *)
Record firecrawl_request : Type := mkFirecrawlRequest {
  fc_query : pyval
}.

(** The keyword arguments of [TavilyClient.search] as the wrapper passes them. *)
Record tavily_request : Type := mkTavilyRequest {
  tv_query : pyval;
  search_depth : pystr;
  topic : pystr;
  days : Z;
  max_results : Z;
  include_answer : bool;
  include_raw_content : bool
}.

(** ** Observable events *)

(** An f-string is kept as its pieces: the literal text and the interpolated
    objects, so that a log line need not commit to how the interpreter prints
    an exception, a type or a container. *)
Inductive fragment : Type :=
| Lit (s : pystr)
| FmtStr (s : pystr)          (* an interpolated str: printed as it is *)
| FmtVal (v : pyval)          (* an interpolated value *)
| FmtExn (e : exn)            (* an interpolated exception *)
| FmtTypeOf (v : pyval)       (* type(v) *)
| FmtNA.                      (* the literal 'N/A' chosen when no response is bound *)

Inductive log_level : Type := INFO | ERROR.

Inductive event : Type :=
| EvChat (req : chat_request)
| EvFirecrawl (req : firecrawl_request)
| EvTavily (req : tavily_request)
| EvLog (lvl : log_level) (msg : list fragment)     (* loguru *)
| EvPrint (msg : list fragment).                    (* stdout *)

Definition trace := list event.

(** The requests of the model calls of a trace, in order, and their number. *)
Definition model_requests (t : trace) : list chat_request :=
  flat_map (fun ev => match ev with EvChat req => [req] | _ => [] end) t.

Definition model_calls (t : trace) : nat := length (model_requests t).

Definition is_search_call (ev : event) : bool :=
  match ev with EvFirecrawl _ | EvTavily _ => true | _ => false end.

Definition search_calls (t : trace) : nat := length (filter is_search_call t).

(** ** The effect monad: exceptions over a persistent trace *)

Definition M (A : Type) : Type := trace -> outcome A * trace.

Definition ret {A} (a : A) : M A := fun t => (Normal a, t).

Definition bind {A B} (c : M A) (k : A -> M B) : M B :=
  fun t => match c t with
           | (Normal a, t') => k a t'
           | (Raise e, t') => (Raise e, t')
           end.

Definition emit (ev : event) : M unit := fun t => (Normal tt, t ++ [ev]).

Definition lift {A} (o : outcome A) : M A := fun t => (o, t).

(** [try: body / except clause as e: handler e] *)
Definition try_except {A} (body : M A) (clause : except_clause) (handler : exn -> M A) : M A :=
  fun t => match body t with
           | (Normal a, t') => (Normal a, t')
           | (Raise e, t') => if catches clause e then handler e t' else (Raise e, t')
           end.

Declare Scope py_scope.
Delimit Scope py_scope with pym.
Notation "x <- c ;; k" := (bind c (fun x => k))
  (at level 61, c at next level, right associativity) : py_scope.
Notation "c ;;; k" := (bind c (fun _ => k))
  (at level 61, right associativity) : py_scope.
Local Open Scope py_scope.

(** Running a computation from the empty trace. *)
Definition run {A} (c : M A) : outcome A * trace := c [].
Definition result_of {A} (c : M A) : outcome A := fst (run c).
Definition trace_of {A} (c : M A) : trace := snd (run c).

(** A [for] loop that appends one element per item, left to right. *)
Fixpoint for_each {A} (body : pyval -> M A) (items : list pyval) : M (list A) :=
  match items with
  | [] => ret []
  | x :: rest => y <- body x ;; ys <- for_each body rest ;; ret (y :: ys)
  end.

(** A comprehension [[f(x) for x in items if g(x)]]. *)
Fixpoint comprehension {A} (cond : pyval -> M bool) (elt : pyval -> M A)
         (items : list pyval) : M (list A) :=
  match items with
  | [] => ret []
  | x :: rest =>
      keep <- cond x ;;
      if keep : bool
      then y <- elt x ;; ys <- comprehension cond elt rest ;; ret (y :: ys)
      else comprehension cond elt rest
  end.

(** ** The environment: everything outside the repository's sources *)

Record Env : Type := mkEnv {
  (** [openai_client.chat.completions.create(...)] *)
  chat_completions_create : chat_request -> outcome chat_response;
  (** [FirecrawlApp.search(...)] *)
  firecrawl_app_search : firecrawl_request -> outcome pyval;
  (** [TavilyClient.search(...)] *)
  tavily_client_search : tavily_request -> outcome pyval;
  (** [json.loads] on a [str] *)
  json_loads : pystr -> outcome pyval;
  (** [os.getenv(name)] *)
  os_getenv : pystr -> option pystr;
  (** [prompt.system_prompt()] *)
  system_prompt : pystr;
  (** [str(v)] for a value that is not a [str] *)
  py_repr : pyval -> pystr;
  (** [ai.providers.trim_prompt(text, size)] on a [str] *)
  trim_prompt : pystr -> nat -> pystr
}.

(** [try: x = first; rest(x) / except clause as e: handler], for a handler
    that looks at whether [x] was bound when the exception arrived
    (['x' in locals()]). *)
Definition try_except_bound {A B} (first : M A) (rest : A -> M B)
           (clause : except_clause) (handler : option A -> exn -> M B) : M B :=
  fun t => match first t with
           | (Raise e, t') =>
               if catches clause e then handler None e t' else (Raise e, t')
           | (Normal x, t') =>
               match rest x t' with
               | (Normal b, t'') => (Normal b, t'')
               | (Raise e, t'') =>
                   if catches clause e then handler (Some x) e t'' else (Raise e, t'')
               end
           end.

Section Interpreter.

Variable env : Env.

(** [str(v)], as an f-string interpolates a value. *)
Definition py_str (v : pyval) : pystr :=
  match v with
  | PStr s => s
  | _ => py_repr env v
  end.

(** [os.getenv(name, default)] *)
Definition getenv (name default : pystr) : pystr :=
  match os_getenv env name with
  | Some v => v
  | None => default
  end.

(** [await asyncio.get_event_loop().run_in_executor(None, lambda:
    openai_client.chat.completions.create(...))] *)
Definition chat (req : chat_request) : M chat_response :=
  emit (EvChat req) ;;; lift (chat_completions_create env req).

(** [response.choices[0].message.content] *)
Definition first_content (r : chat_response) : outcome (option pystr) :=
  match choices r with
  | c :: _ => Normal c
  | [] => Raise (mkExn IndexError (py "list index out of range"))
  end.

Definition content_value (c : option pystr) : pyval :=
  match c with
  | Some s => PStr s
  | None => PNone
  end.

(** [json.loads(content)]: a content that is [None] is rejected before any
    decoding starts. *)
Definition loads (c : option pystr) : outcome pyval :=
  match c with
  | Some s => json_loads env s
  | None => Raise (mkExn TypeError (py "the JSON object must be str, bytes or bytearray, not NoneType"))
  end.

End Interpreter.

(** ** translate.py *)

(** [u'\u4e00' <= char <= u'\u9fff'] *)
Definition is_cjk (c : codepoint) : bool :=
  ((0x4e00 <=? c) && (c <=? 0x9fff))%N.

Section Translate.

Variable env : Env.

Definition translation_request (query : pystr) : chat_request :=
  {| model := getenv env (py "TRANSLATION_MODEL") (py "gpt-4o-mini");
     messages :=
       [ mkMessage (py "system")
           (py "You are a professional translator. Translate the given Chinese text to English accurately and naturally.");
         mkMessage (py "user")
           (py "Translate the following query to English: " ++ query
            ++ py "Return the response as a JSON object with a 'translation' field.") ];
     temperature := Some (2 # 10)%Q;
     top_p := Some (75 # 100)%Q;
     response_format := py "json_object" |}.

Definition translate_to_english (query : pystr) : M pyval :=
  try_except
    (if negb (existsb is_cjk query) then ret (PStr query)
     else
       response <- chat env (translation_request query) ;;
       translated_text <-
         try_except
           (c <- lift (first_content response) ;;
            result <- lift (loads env c) ;;
            lift (py_get result (py "translation") (PStr query)))
           Except_JSONDecodeError
           (fun e =>
              emit (EvLog ERROR [Lit (py "Error parsing JSON response: "); FmtExn e]) ;;;
              ret (PStr query)) ;;
       emit (EvLog INFO [Lit (py "Translated '"); FmtVal (PStr query);
                         Lit (py "' to '"); FmtVal translated_text; Lit (py "'")]) ;;;
       ret translated_text)
    Except_Exception
    (fun e =>
       emit (EvLog ERROR [Lit (py "Translation error: "); FmtExn e]) ;;;
       ret (PStr query)).

End Translate.

(** ** search_engine.py *)

Inductive SearchEngineType : Type := FIRECRAWL | TAVILY.

(** [{"data": []}] *)
Definition empty_response : pyval := PDict [(py "data", PList [])].

Module Firecrawl.
Section WithEnv.

Variable env : Env.

(** What the loop over a list response appends for one item. *)
Definition format_item (item : pyval) : M pyval :=
  if isinstance_dict item then ret item
  else
    let url := py_getattr item (py "url") (PStr []) in
    let markdown :=
      let m := py_getattr item (py "markdown") (PStr []) in
      if truthy m then m else py_getattr item (py "content") (PStr []) in
    title <-
      (let t := py_getattr item (py "title") (PStr []) in
       if truthy t then ret t
       else lift (py_get (py_getattr item (py "metadata") (PDict [])) (py "title") (PStr []))) ;;
    ret (PDict [(py "url", url); (py "markdown", markdown); (py "title", title)]).

(** The arguments of [self.app.search] for [search(query, timeout, limit)]. *)
Definition request (query : pyval) (timeout limit : Z) : firecrawl_request :=
  {| fc_query := query |}.

Definition search (query : pyval) (timeout limit : Z) : M pyval :=
  try_except_bound
    (emit (EvFirecrawl (request query timeout limit)) ;;;
     lift (firecrawl_app_search env (request query timeout limit)))
    (fun response =>
       if isinstance_dict response && py_in_dict (py "data") response then
         ret response
       else if isinstance_dict response && py_in_dict (py "success") response then
         data <- lift (py_get response (py "data") (PList [])) ;;
         ret (PDict [(py "data", data)])
       else if isinstance_list response then
         items <- lift (py_iter response) ;;
         formatted_data <- for_each format_item items ;;
         ret (PDict [(py "data", PList formatted_data)])
       else
         emit (EvLog ERROR [Lit (py "Unexpected response format from Firecrawl: ");
                            FmtTypeOf response]) ;;;
         ret empty_response)
    Except_Exception
    (fun bound e =>
       emit (EvLog ERROR [Lit (py "Error searching with Firecrawl: "); FmtExn e]) ;;;
       emit (EvLog ERROR [Lit (py "Response type: ");
                          match bound with
                          | Some response => FmtTypeOf response
                          | None => FmtNA
                          end]) ;;;
       ret empty_response).

End WithEnv.
End Firecrawl.

Module Tavily.
Section WithEnv.

Variable env : Env.

(** What the loop over [results] appends for one item. *)
Definition format_item (item : pyval) : M pyval :=
  title <- lift (py_get item (py "title") (PStr [])) ;;
  url <- lift (py_get item (py "url") (PStr [])) ;;
  published_date <- lift (py_get item (py "published_date") (PStr [])) ;;
  dated <- lift (py_add published_date (PStr (py "\n"))) ;;
  body <- lift (py_get item (py "content") (PStr [])) ;;
  markdown <- lift (py_add dated body) ;;
  ret (PDict [(py "title", title); (py "url", url); (py "markdown", markdown)]).

(** The arguments of [self.client.search] for [search(query, timeout, limit)]. *)
Definition request (query : pyval) (timeout limit : Z) : tavily_request :=
  {| tv_query := query;
     search_depth := py "advanced";
     topic := py "general";
     days := 5;
     max_results := limit;
     include_answer := true;
     include_raw_content := true |}.

Definition search (query : pyval) (timeout limit : Z) : M pyval :=
  try_except
    (response <-
       (emit (EvTavily (request query timeout limit)) ;;;
        lift (tavily_client_search env (request query timeout limit))) ;;
     results <- lift (py_get response (py "results") (PList [])) ;;
     if truthy results then
       items <- lift (py_iter results) ;;
       formatted_data <- for_each format_item items ;;
       answer <- lift (py_get response (py "answer") (PStr [])) ;;
       ret (PDict [(py "data", PList formatted_data); (py "answer", answer)])
     else
       emit (EvLog ERROR [Lit (py "Unexpected response format from Tavily: ");
                          FmtVal response]) ;;;
       ret empty_response)
    Except_Exception
    (fun e =>
       emit (EvLog ERROR [Lit (py "Error searching with Tavily: "); FmtExn e]) ;;;
       ret empty_response).

End WithEnv.
End Tavily.

(** [SearchEngine(engine_type).engine.search] *)
Definition SearchEngine (env : Env) (engine_type : SearchEngineType)
  : pyval -> Z -> Z -> M pyval :=
  match engine_type with
  | FIRECRAWL => Firecrawl.search env
  | TAVILY => Tavily.search env
  end.

(** The defaults of both [search] methods, [timeout=15000] and [limit=5]. *)
Definition default_timeout : Z := 15000.
Definition default_limit : Z := 5.

(** ** feedback.py *)

(** The per-hit budget handed to [trim_prompt]. *)
Definition content_budget : nat := 15000.

(** [f"<content>\n{content}\n</content>"] *)
Definition content_block (c : pystr) : pystr :=
  py "<content>\n" ++ c ++ py "\n</content>".

(** [if item.get("markdown")] *)
Definition hit_is_kept (item : pyval) : M bool :=
  m <- lift (py_get item (py "markdown") PNone) ;; ret (truthy m).

Section Feedback.

Variable env : Env.

(** [trim_prompt(v, size)]: the helper works on text. *)
Definition call_trim_prompt (v : pyval) (size : nat) : outcome pystr :=
  match v with
  | PStr s => Normal (trim_prompt env s size)
  | _ => Raise (mkExn TypeError (py "expected string"))
  end.

(** [trim_prompt(item.get("markdown", ""), 15_000)] *)
Definition hit_content (item : pyval) : M pystr :=
  m <- lift (py_get item (py "markdown") (PStr [])) ;;
  lift (call_trim_prompt m content_budget).

(** Lines 27-35 of feedback.py: the context built from a search result. *)
Definition search_context (search_result : pyval) : M pystr :=
  data <- lift (py_getitem search_result (py "data")) ;;
  items <- lift (py_iter data) ;;
  contents <- comprehension hit_is_kept hit_content items ;;
  search_answer <- lift (py_get search_result (py "answer") (PStr [])) ;;
  ret (py "\n\nHere is some background information about the topic:\n"
       ++ concat (map content_block contents)
       ++ py_str env search_answer).

Definition feedback_request (query : pyval) (context : pystr) : chat_request :=
  {| model := getenv env (py "REASONING_MODEL") (py "o3-mini");
     messages :=
       [ mkMessage (py "system") (system_prompt env);
         mkMessage (py "user")
           (py "Given this research topic: " ++ py_str env query ++ context
            ++ py ", generate 3-5 follow-up questions to better understand the user's research needs. Return the response as a JSON object with a 'questions' array field.") ];
     temperature := None;
     top_p := None;
     response_format := py "json_object" |}.

(** Lines 21-36 of feedback.py: the query and the context that reach the
    prompt. *)
Definition enhance (query : pystr) (use_search_enhancement : bool) : M (pyval * pystr) :=
  if use_search_enhancement then
    let search_engine := SearchEngine env TAVILY in
    query' <- translate_to_english env query ;;
    search_result <- search_engine query' default_timeout 5%Z ;;
    context <- search_context search_result ;;
    emit (EvLog INFO [Lit (py "Search result: "); FmtVal (PStr context)]) ;;;
    ret (query', context)
  else ret (PStr query, []).

(** Lines 56-63 of feedback.py: parsing the response. *)
Definition parse_questions (response : chat_response) : M pyval :=
  try_except
    (c <- lift (first_content response) ;;
     result <- lift (loads env c) ;;
     lift (py_get result (py "questions") (PList [])))
    Except_JSONDecodeError
    (fun e =>
       emit (EvPrint [Lit (py "Error parsing JSON response: "); FmtExn e]) ;;;
       c <- lift (first_content response) ;;
       emit (EvPrint [Lit (py "Raw response: "); FmtVal (content_value c)]) ;;;
       ret (PList [])).

Definition generate_feedback (query : pystr) (use_search_enhancement : bool) : M pyval :=
  qc <- enhance query use_search_enhancement ;;
  response <- chat env (feedback_request (fst qc) (snd qc)) ;;
  parse_questions response.

End Feedback.

(** ** app.py *)

Module ResearchSession.

Record t : Type := mkSession {
  query : pystr;
  questions : list pystr;
  answers : list pystr;
  report_language : pystr;
  breadth : Z;
  depth : Z
}.

(** [__init__] *)
Definition init : t :=
  {| query := []; questions := []; answers := [];
     report_language := py "zh"; breadth := 4; depth := 2 |}.

Definition set_query (self : t) (q : pystr) : t :=
  {| query := q; questions := questions self; answers := answers self;
     report_language := report_language self;
     breadth := breadth self; depth := depth self |}.

Definition set_questions (self : t) (qs : list pystr) : t :=
  {| query := query self; questions := qs; answers := answers self;
     report_language := report_language self;
     breadth := breadth self; depth := depth self |}.

Definition set_answers (self : t) (ans : list pystr) : t :=
  {| query := query self; questions := questions self; answers := ans;
     report_language := report_language self;
     breadth := breadth self; depth := depth self |}.

(** [f"Q: {q}\nA: {a}"] *)
Definition qa_block (qa : pystr * pystr) : pystr :=
  py "Q: " ++ fst qa ++ py "\nA: " ++ snd qa.

Definition get_combined_query (self : t) : pystr :=
  let qa_pairs := combine (questions self) (answers self) in
  let qa_text := join (py "\n") (map qa_block qa_pairs) in
  py "Initial Query: " ++ query self
  ++ py "\nFollow-up Questions and Answers:\n" ++ qa_text.

End ResearchSession.

(** [str.isspace] on one code point, the characters [str.strip()] removes. *)
Definition is_space (c : codepoint) : bool :=
  (((9 <=? c) && (c <=? 13)) || ((28 <=? c) && (c <=? 32))
   || (c =? 0x85) || (c =? 0xa0) || (c =? 0x1680)
   || ((0x2000 <=? c) && (c <=? 0x200a))
   || (c =? 0x2028) || (c =? 0x2029) || (c =? 0x202f) || (c =? 0x205f)
   || (c =? 0x3000))%N.

Fixpoint lstrip (s : pystr) : pystr :=
  match s with
  | c :: rest => if is_space c then lstrip rest else s
  | [] => []
  end.

(** [s.strip()] *)
Definition strip (s : pystr) : pystr := rev (lstrip (rev (lstrip s))).

(** [a and a.strip() != ""] *)
Definition is_valid_answer (a : pystr) : bool :=
  match a with
  | [] => false
  | _ => negb (pystr_eqb (strip a) [])
  end.

(** The session update of [on_start_research_async(answers..., lang, breadth,
    depth)], up to the call of [research_handler]. *)
Definition on_start_research_async (session : ResearchSession.t)
           (answers : list pystr) (lang : pystr) (breadth depth : Z)
  : ResearchSession.t :=
  let valid_answers := filter is_valid_answer answers in
  let session := ResearchSession.set_answers session valid_answers in
  {| ResearchSession.query := ResearchSession.query session;
     ResearchSession.questions := ResearchSession.questions session;
     ResearchSession.answers := ResearchSession.answers session;
     ResearchSession.report_language := lang;
     ResearchSession.breadth := breadth;
     ResearchSession.depth := depth |}.

(** ** A reference JSON decoder

    [json.loads] belongs to the Python library, so the pipeline above takes
    it from the environment.  The closed examples below run the pipeline
    with this decoder in its place.  It reads objects, arrays, strings with
    their escapes, integers and the three literals. *)

Module Json.

Definition is_ws (c : codepoint) : bool :=
  ((c =? 32) || (c =? 9) || (c =? 10) || (c =? 13))%N.

Fixpoint skip_ws (s : pystr) : pystr :=
  match s with
  | c :: rest => if is_ws c then skip_ws rest else s
  | [] => []
  end.

Definition is_digit (c : codepoint) : bool := ((48 <=? c) && (c <=? 57))%N.

Definition hex_value (c : codepoint) : option N :=
  if ((48 <=? c) && (c <=? 57))%N then Some (c - 48)%N
  else if ((97 <=? c) && (c <=? 102))%N then Some (c - 87)%N
  else if ((65 <=? c) && (c <=? 70))%N then Some (c - 55)%N
  else None.

(** The characters of a string literal, after its opening quote. *)
Fixpoint string_body (s : pystr) (acc : pystr) : option (pystr * pystr) :=
  match s with
  | [] => None
  | 34%N :: rest => Some (rev acc, rest)
  | 92%N :: rest =>
      match rest with
      | 34%N :: r => string_body r (34%N :: acc)
      | 92%N :: r => string_body r (92%N :: acc)
      | 47%N :: r => string_body r (47%N :: acc)
      | 98%N :: r => string_body r (8%N :: acc)
      | 102%N :: r => string_body r (12%N :: acc)
      | 110%N :: r => string_body r (10%N :: acc)
      | 114%N :: r => string_body r (13%N :: acc)
      | 116%N :: r => string_body r (9%N :: acc)
      | 117%N :: a :: b :: c :: d :: r =>
          match hex_value a, hex_value b, hex_value c, hex_value d with
          | Some x, Some y, Some z, Some w =>
              string_body r ((((x * 16 + y) * 16 + z) * 16 + w)%N :: acc)
          | _, _, _, _ => None
          end
      | _ => None
      end
  | c :: rest => if (c <? 32)%N then None else string_body rest (c :: acc)
  end.

Fixpoint digits (s : pystr) (acc : N) : N * pystr :=
  match s with
  | c :: rest => if is_digit c then digits rest (acc * 10 + (c - 48))%N else (acc, s)
  | [] => (acc, [])
  end.

(** An integer literal; a fraction or an exponent is outside this decoder. *)
Definition number (s : pystr) : option (Z * pystr) :=
  let negative := match s with 45%N :: _ => true | _ => false end in
  let s1 := if negative then tl s else s in
  match s1 with
  | c :: r =>
      if is_digit c then
        let '(n, rest) := if (c =? 48)%N then (0%N, r) else digits s1 0%N in
        match rest with
        | 46%N :: _ | 101%N :: _ | 69%N :: _ => None
        | _ => Some (if negative then (- Z.of_N n)%Z else Z.of_N n, rest)
        end
      else None
  | [] => None
  end.

(** [d[k] = v] on a dict kept in insertion order. *)
Fixpoint dict_set (k : pystr) (v : pyval) (d : list (pystr * pyval)) : list (pystr * pyval) :=
  match d with
  | [] => [(k, v)]
  | (k', v') :: rest =>
      if pystr_eqb k k' then (k', v) :: rest else (k', v') :: dict_set k v rest
  end.

Definition starts_with (p s : pystr) : option pystr :=
  if pystr_eqb (firstn (length p) s) p then Some (skipn (length p) s) else None.

Fixpoint value (fuel : nat) (s : pystr) : option (pyval * pystr) :=
  match fuel with
  | O => None
  | S fuel =>
      match skip_ws s with
      | [] => None
      | 34%N :: rest =>
          match string_body rest [] with
          | Some (str, r) => Some (PStr str, r)
          | None => None
          end
      | 91%N :: rest =>
          match skip_ws rest with
          | 93%N :: r => Some (PList [], r)
          | _ => match elements fuel rest with
                 | Some (items, r) => Some (PList items, r)
                 | None => None
                 end
          end
      | 123%N :: rest =>
          match skip_ws rest with
          | 125%N :: r => Some (PDict [], r)
          | _ => match members fuel rest [] with
                 | Some (d, r) => Some (PDict d, r)
                 | None => None
                 end
          end
      | s' =>
          match starts_with (py "null") s', starts_with (py "true") s',
                starts_with (py "false") s' with
          | Some r, _, _ => Some (PNone, r)
          | _, Some r, _ => Some (PBool true, r)
          | _, _, Some r => Some (PBool false, r)
          | _, _, _ => match number s' with
                       | Some (n, r) => Some (PInt n, r)
                       | None => None
                       end
          end
      end
  end
with elements (fuel : nat) (s : pystr) : option (list pyval * pystr) :=
  match fuel with
  | O => None
  | S fuel =>
      match value fuel s with
      | Some (v, r) =>
          match skip_ws r with
          | 44%N :: r' =>
              match elements fuel r' with
              | Some (vs, r'') => Some (v :: vs, r'')
              | None => None
              end
          | 93%N :: r' => Some ([v], r')
          | _ => None
          end
      | None => None
      end
  end
with members (fuel : nat) (s : pystr) (acc : list (pystr * pyval))
  : option (list (pystr * pyval) * pystr) :=
  match fuel with
  | O => None
  | S fuel =>
      match skip_ws s with
      | 34%N :: rest =>
          match string_body rest [] with
          | Some (k, r) =>
              match skip_ws r with
              | 58%N :: r1 =>
                  match value fuel r1 with
                  | Some (v, r2) =>
                      match skip_ws r2 with
                      | 44%N :: r3 => members fuel r3 (dict_set k v acc)
                      | 125%N :: r3 => Some (dict_set k v acc, r3)
                      | _ => None
                      end
                  | None => None
                  end
              | _ => None
              end
          | None => None
          end
      | _ => None
      end
  end.

(** The fuel bounds the nesting and the number of elements; the decoder is
    started with one more than the length of the text. *)
Definition decode (s : pystr) : outcome pyval :=
  match value (S (length s)) s with
  | Some (v, rest) =>
      match skip_ws rest with
      | [] => Normal v
      | _ => Raise (mkExn JSONDecodeError (py "Extra data"))
      end
  | None => Raise (mkExn JSONDecodeError (py "Expecting value"))
  end.

(** JSON text for the examples, written with an apostrophe for each quotation
    mark. *)
Definition text (s : string) : pystr :=
  map (fun c => if (c =? 39)%N then 34%N else c) (py s).

End Json.

(** ** Scripted environments for the closed examples *)

(** Modelled from the spec: [ai.providers.trim_prompt] is not among the
    sources.  Section 4.3 of the spec fixes its contract only: the result is
    bounded by the budget, "never exceeds the budget", whatever the
    truncation strategy. *)
Definition trim_prompt_contract (env : Env) : Prop :=
  forall (text : pystr) (size : nat), length (trim_prompt env text size) <= size.

(** Modelled from the spec: one truncation that meets the contract of
    [ai.providers.trim_prompt], "preserving a usable prefix" and removing the
    tail. *)
Definition trim_prompt_prefix (text : pystr) (size : nat) : pystr :=
  firstn size text.

(** A model client that answers every request with one choice holding [body]. *)
Definition reply_with (body : pystr) : chat_request -> outcome chat_response :=
  fun _ => Normal {| choices := [Some body] |}.

(** A model client that answers the translation model with [translation] and
    any other model with [answer]. *)
Definition scripted_model (translation answer : pystr)
  : chat_request -> outcome chat_response :=
  fun req =>
    if pystr_eqb (model req) (py "gpt-4o-mini")
    then Normal {| choices := [Some translation] |}
    else Normal {| choices := [Some answer] |}.

(** A collaborator that is unreachable. *)
Definition unreachable {Req Resp : Type} : Req -> outcome Resp :=
  fun _ => Raise (mkExn SDKError (py "Connection error.")).

Definition mock_env (model_client : chat_request -> outcome chat_response)
           (firecrawl tavily : pyval -> outcome pyval) : Env :=
  {| chat_completions_create := model_client;
     firecrawl_app_search := fun req => firecrawl (fc_query req);
     tavily_client_search := fun req => tavily (tv_query req);
     json_loads := Json.decode;
     os_getenv := fun _ => None;
     system_prompt := py "You are an expert researcher.";
     py_repr := fun _ => py "<object>";
     trim_prompt := trim_prompt_prefix |}.

(** ** Vocabulary of the statements *)

(** A computation is total when it returns normally from every trace. *)
Definition never_raises {A} (c : M A) : Prop :=
  forall t, raises (fst (c t)) = false.

(** A computation is silent when it records nothing and its outcome does
    not depend on what was recorded before. *)
Definition silent {A} (c : M A) : Prop :=
  forall t, c t = (fst (c []), t).

(** The three ways the translation can fail, for a query that does need it:
    the model call raises; the body of the first choice is not decodable;
    the decoded object carries no [translation] field. *)
Inductive translation_fails (env : Env) (query : pystr) : Prop :=
| model_call_raises e :
    chat_completions_create env (translation_request env query) = Raise e ->
    translation_fails env query
| unparsable_json r body e :
    chat_completions_create env (translation_request env query) = Normal r ->
    first_content r = Normal (Some body) ->
    json_loads env body = Raise e ->
    translation_fails env query
| missing_translation_field r body d :
    chat_completions_create env (translation_request env query) = Normal r ->
    first_content r = Normal (Some body) ->
    json_loads env body = Normal (PDict d) ->
    lookup (py "translation") d = None ->
    translation_fails env query.

(** The provider call a backend issues for [search(query, timeout, limit)]. *)
Definition provider_call (env : Env) (engine_type : SearchEngineType)
           (query : pyval) (timeout limit : Z) : outcome pyval :=
  match engine_type with
  | FIRECRAWL => firecrawl_app_search env (Firecrawl.request query timeout limit)
  | TAVILY => tavily_client_search env (Tavily.request query timeout limit)
  end.

(** The markdown text of a search hit [{title, url, markdown}]. *)
Definition hit_markdown (item : pyval) : option pystr :=
  match item with
  | PDict d => match lookup (py "markdown") d with
               | Some (PStr md) => Some md
               | _ => None
               end
  | _ => None
  end.

Definition nonempty (s : pystr) : bool :=
  match s with [] => false | _ => true end.

(** The contents the context builder keeps from the markdown texts of the
    hits: the empty ones are skipped, every other one is trimmed on its own. *)
Definition trimmed_contents (env : Env) (mds : list pystr) : list pystr :=
  map (fun md => trim_prompt env md content_budget) (filter nonempty mds).

(** [needle] occurs in [text]. *)
Definition occurs_in (needle text : pystr) : Prop :=
  exists before after, text = before ++ needle ++ after.

(** The question/answer part of the combined query, as the specification words it:
    one block per pair, a line feed between consecutive blocks. *)
Fixpoint repeated_pairs (qs ans : list pystr) : pystr :=
  match qs, ans with
  | q :: qs', a :: ans' =>
      py "Q: " ++ q ++ py "\nA: " ++ a
      ++ match repeated_pairs qs' ans' with
         | [] => []
         | more => py "\n" ++ more
         end
  | _, _ => []
  end.

(** The trace of a computation only grows. *)
Definition grows {A} (c : M A) : Prop :=
  forall t, exists tail, snd (c t) = t ++ tail.

(** The answer a search result carries, [search_result.get("answer", "")]. *)
Definition answer_of (d : list (pystr * pyval)) : pyval :=
  match lookup (py "answer") d with
  | Some a => a
  | None => PStr []
  end.

(** ** Data of the closed examples *)

(** The query U+91CF U+5B50 ("quantum"), which does need translation. *)
Definition cjk_query : pystr := [0x91cf; 0x5b50]%N.

(** A hit whose markdown is one character longer than the budget. *)
Definition long_text : pystr := repeat 97%N (S content_budget).

Definition long_hit : pyval :=
  PDict [(py "title", PStr (py "T")); (py "url", PStr (py "u"));
         (py "markdown", PStr long_text)].

(** The structured response of the end-to-end example. *)
Definition three_questions : pystr := Json.text "{'questions': ['Q1?', 'Q2?', 'Q3?']}".

(** ** app.py: the outputs of [on_get_questions_fixed] *)

(** [str(n)] for a natural number. *)
Fixpoint uint_digits (d : Decimal.uint) : pystr :=
  match d with
  | Decimal.Nil => []
  | Decimal.D0 d => 48%N :: uint_digits d
  | Decimal.D1 d => 49%N :: uint_digits d
  | Decimal.D2 d => 50%N :: uint_digits d
  | Decimal.D3 d => 51%N :: uint_digits d
  | Decimal.D4 d => 52%N :: uint_digits d
  | Decimal.D5 d => 53%N :: uint_digits d
  | Decimal.D6 d => 54%N :: uint_digits d
  | Decimal.D7 d => 55%N :: uint_digits d
  | Decimal.D8 d => 56%N :: uint_digits d
  | Decimal.D9 d => 57%N :: uint_digits d
  end.

Definition decimal (n : nat) : pystr := uint_digits (Nat.to_uint n).

(** [len(v)] *)
Definition py_len (v : pyval) : outcome nat :=
  match v with
  | PList l => Normal (length l)
  | PStr s => Normal (length s)
  | PDict d => Normal (length d)
  | _ => Raise (mkExn TypeError (py "object has no len()"))
  end.

(** [v[i]] for an index [i] of [range(10)] *)
Definition py_index (v : pyval) (i : nat) : outcome pyval :=
  match v with
  | PList l => match nth_error l i with
               | Some x => Normal x
               | None => Raise (mkExn IndexError (py "list index out of range"))
               end
  | PStr s => match nth_error s i with
              | Some c => Normal (PStr [c])
              | None => Raise (mkExn IndexError (py "string index out of range"))
              end
  | PDict _ => Raise (mkExn KeyError (decimal i))
  | _ => Raise (mkExn TypeError (py "object is not subscriptable"))
  end.

(** [enumerate(items)] *)
Definition enumerate {A} (items : list A) : list (nat * A) :=
  combine (seq 0 (length items)) items.

(** [gr.update(visible=..., label=...)] *)
Record update : Type := mkUpdate { visible : bool; label : option pystr }.

(** A [for i in range(...)] loop that appends one element per index. *)
Fixpoint for_range {A} (body : nat -> M A) (indices : list nat) : M (list A) :=
  match indices with
  | [] => ret []
  | i :: rest => y <- body i ;; ys <- for_range body rest ;; ret (y :: ys)
  end.

(** The literals of the handler: the heading of the question list, the text
    shown when there is none, and the pieces of an answer label. *)
Definition questions_heading : pystr :=
  [35; 35; 35; 32; 36319; 36827; 38382; 39064; 58; 10]%N.
Definition no_questions_text : pystr :=
  [26410; 29983; 25104; 36319; 36827; 38382; 39064; 12290]%N.
Definition answer_label (i : nat) (question : pystr) : pystr :=
  ([22238; 31572; 32]%N ++ decimal (i + 1)
   ++ [65288; 38382; 39064; 65306]%N ++ question ++ [65289]%N).

Section QuestionOutputs.

Variable env : Env.

(** Lines 72-83 of app.py: the markdown and the ten answer-box updates that
    [on_get_questions_fixed] returns for the questions it received. *)
Definition question_outputs (questions : pyval) : M (pystr * list update) :=
  md <-
    (if truthy questions then
       items <- lift (py_iter questions) ;;
       ret (questions_heading
            ++ join (py "\n")
                 (map (fun iq => decimal (fst iq + 1) ++ py ". " ++ py_str env (snd iq))
                      (enumerate items)))
     else ret no_questions_text) ;;
  updates <-
    for_range
      (fun i =>
         n <- lift (py_len questions) ;;
         if i <? n then
           q <- lift (py_index questions i) ;;
           ret {| visible := true; label := Some (answer_label i (py_str env q)) |}
         else ret {| visible := false; label := None |})
      (seq 0 10) ;;
  ret (md, updates).

End QuestionOutputs.


(** ** Vocabulary of the further statements *)

(** The events a logger or [print] records. *)
Definition is_log (ev : event) : bool :=
  match ev with
  | EvLog _ _ | EvPrint _ => true
  | _ => false
  end.

Definition logs_only (t : trace) : Prop := forallb is_log t = true.

(** A computation that records log lines only. *)
Definition appends_logs {A} (c : M A) : Prop :=
  forall t, exists tail, snd (c t) = t ++ tail /\ logs_only tail.

(** The provider requests of a trace, in order. *)
Definition tavily_requests (t : trace) : list tavily_request :=
  flat_map (fun ev => match ev with EvTavily req => [req] | _ => [] end) t.

Definition firecrawl_requests (t : trace) : list firecrawl_request :=
  flat_map (fun ev => match ev with EvFirecrawl req => [req] | _ => [] end) t.

(** [d.get(key, default)] on the entries of a dict. *)
Definition dict_get (d : list (pystr * pyval)) (key : pystr) (default : pyval) : pyval :=
  match lookup key d with
  | Some x => x
  | None => default
  end.

(** The hit [Tavily.search] makes of a provider result whose
    [published_date] and [content] are texts (or absent). *)
Definition tavily_hit (item : pyval) : option pyval :=
  match item with
  | PDict d =>
      match dict_get d (py "published_date") (PStr []), dict_get d (py "content") (PStr []) with
      | PStr date, PStr body =>
          Some (PDict [(py "title", dict_get d (py "title") (PStr []));
                       (py "url", dict_get d (py "url") (PStr []));
                       (py "markdown", PStr (date ++ py "\n" ++ body))])
      | _, _ => None
      end
  | _ => None
  end.

(** A hit the context builder keeps: its markdown is a non-empty text. *)
Definition has_text (item : pyval) : bool :=
  match hit_markdown item with
  | Some (_ :: _) => true
  | _ => false
  end.

(** A character that is not white space occurs in [a]. *)
Definition has_ink (a : pystr) : bool := existsb (fun c => negb (is_space c)) a.

(** * Properties *)

Local Open Scope py_scope.

(** ** The monad's equations *)

Lemma never_raises_normal {A} (c : M A) :
  never_raises c -> forall t, exists a t', c t = (Normal a, t').
Proof.
  intros H t. specialize (H t).
  destruct (c t) as [[a|e] t']; simpl in H; [eauto | discriminate].
Qed.

Lemma ret_never_raises {A} (a : A) : never_raises (ret a).
Proof. intros t. reflexivity. Qed.

Lemma emit_then_never_raises {A} ev (c : M A) :
  never_raises c -> never_raises (emit ev ;;; c).
Proof. intros H t. unfold bind, emit. apply H. Qed.

(** [except Exception] with a handler that cannot fail makes the whole
    statement total. *)
Lemma try_except_Exception_total {A} (body : M A) handler :
  (forall e, never_raises (handler e)) ->
  never_raises (try_except body Except_Exception handler).
Proof.
  intros H t. unfold try_except.
  destruct (body t) as [[a|e] t']; simpl; [reflexivity | apply H].
Qed.

Lemma try_except_bound_Exception_total {A B} (first : M A) (rest : A -> M B) handler :
  (forall b e, never_raises (handler b e)) ->
  never_raises (try_except_bound first rest Except_Exception handler).
Proof.
  intros H t. unfold try_except_bound.
  destruct (first t) as [[x|e] t']; simpl; [|apply H].
  destruct (rest x t') as [[b|e] t'']; simpl; [reflexivity | apply H].
Qed.

Lemma silent_ret {A} (a : A) : silent (ret a).
Proof. intros t. reflexivity. Qed.

Lemma silent_lift {A} (o : outcome A) : silent (lift o).
Proof. intros t. reflexivity. Qed.

Lemma silent_bind {A B} (c : M A) (k : A -> M B) :
  silent c -> (forall a, silent (k a)) -> silent (bind c k).
Proof.
  intros Hc Hk t. unfold bind. rewrite (Hc t).
  pose proof (Hc []) as H0. destruct (c []) as [o t0]. simpl in *.
  injection H0 as ->.
  destruct o as [a|e]; [apply Hk | reflexivity].
Qed.

Lemma silent_for_each {A} (body : pyval -> M A) items :
  (forall x, silent (body x)) -> silent (for_each body items).
Proof.
  intros Hb. induction items as [|x xs IH]; simpl.
  - apply silent_ret.
  - apply silent_bind; [apply Hb|]. intros y.
    apply silent_bind; [apply IH|]. intros ys. apply silent_ret.
Qed.

(** ** translate.py *)

Lemma translate_never_raises env query : never_raises (translate_to_english env query).
Proof.
  apply try_except_Exception_total. intros e.
  apply emit_then_never_raises, ret_never_raises.
Qed.

Lemma no_cjk_existsb (query : pystr) :
  (forall c, In c query -> ~ (0x4e00 <= c <= 0x9fff)%N) ->
  existsb is_cjk query = false.
Proof.
  intros H. induction query as [|c q IH]; simpl; [reflexivity|].
  rewrite IH by (intros c' Hc'; apply H; now right).
  rewrite orb_false_r. unfold is_cjk.
  destruct (0x4e00 <=? c)%N eqn:E1; [|reflexivity].
  destruct (c <=? 0x9fff)%N eqn:E2; [|reflexivity].
  exfalso. apply (H c); [now left|].
  apply N.leb_le in E1, E2. split; assumption.
Qed.

(** C4.  A string with no character in U+4E00..U+9FFF comes back unchanged
    from [translate_to_english], and the trace is left exactly as it was:
    no model call (and no other event) is issued. *)
Theorem translate_detection_purity (env : Env) (query : pystr) (t : trace) :
  (forall c, In c query -> ~ (0x4e00 <= c <= 0x9fff)%N) ->
  translate_to_english env query t = (Normal (PStr query), t)
  /\ model_calls (snd (translate_to_english env query t)) = model_calls t.
Proof.
  intros H. apply no_cjk_existsb in H.
  assert (E : translate_to_english env query t = (Normal (PStr query), t)).
  { unfold translate_to_english, try_except. rewrite H. reflexivity. }
  rewrite E. split; reflexivity.
Qed.

Lemma translate_detection_purity_witness :
  let env := mock_env unreachable unreachable unreachable in
  translate_to_english env (py "AI") [] = (Normal (PStr (py "AI")), [])
  /\ model_calls (snd (translate_to_english env (py "AI") [])) = model_calls [].
Proof.
  intros env. apply (translate_detection_purity env (py "AI") []).
  intros c Hc. simpl in Hc.
  destruct Hc as [<-|[<-|[]]]; lia.
Defined.

(** C3.  Whenever the model call of [translate_to_english] raises, or its
    response is not parsable JSON, or the parsed object has no [translation]
    field, the function returns normally with the original input string. *)
Theorem translate_fallback (env : Env) (query : pystr) (t : trace) :
  translation_fails env query ->
  fst (translate_to_english env query t) = Normal (PStr query).
Proof.
  intros Hf.
  unfold translate_to_english, try_except at 1.
  destruct (existsb is_cjk query); simpl; [|reflexivity].
  unfold chat, try_except, bind, emit, lift; simpl.
  destruct Hf as [e He | r body e Hr Hc Hj | r body d Hr Hc Hj Hl].
  - rewrite He. reflexivity.
  - rewrite Hr, Hc; simpl. rewrite Hj.
    destruct (exn_class_eqb (exn_cls e) JSONDecodeError); reflexivity.
  - rewrite Hr, Hc; simpl. rewrite Hj; simpl. rewrite Hl. reflexivity.
Qed.

Lemma translate_fallback_witness :
  let env := mock_env unreachable unreachable unreachable in
  translation_fails env cjk_query
  /\ fst (translate_to_english env cjk_query []) = Normal (PStr cjk_query).
Proof.
  intros env.
  assert (Hf : translation_fails env cjk_query).
  { apply (model_call_raises env cjk_query (mkExn SDKError (py "Connection error."))).
    reflexivity. }
  split; [exact Hf | exact (translate_fallback env cjk_query [] Hf)].
Defined.

(** The other two failures and the success, run on the reference decoder. *)
Example translate_unparsable_reply :
  run (translate_to_english
         (mock_env (reply_with (py "quantum, I think")) unreachable unreachable)
         cjk_query)
  = (Normal (PStr cjk_query),
     [ EvChat (translation_request
                 (mock_env (reply_with (py "quantum, I think")) unreachable unreachable)
                 cjk_query);
       EvLog ERROR [Lit (py "Error parsing JSON response: ");
                    FmtExn (mkExn JSONDecodeError (py "Expecting value"))];
       EvLog INFO [Lit (py "Translated '"); FmtVal (PStr cjk_query);
                   Lit (py "' to '"); FmtVal (PStr cjk_query); Lit (py "'")] ]).
Proof. vm_compute. reflexivity. Qed.

Example translate_reply_without_field :
  result_of (translate_to_english
               (mock_env (reply_with (Json.text "{'text': 'quantum'}")) unreachable unreachable)
               cjk_query)
  = Normal (PStr cjk_query).
Proof. vm_compute. reflexivity. Qed.

Example translate_reply_not_an_object :
  result_of (translate_to_english
               (mock_env (reply_with (Json.text "['quantum']")) unreachable unreachable)
               cjk_query)
  = Normal (PStr cjk_query).
Proof. vm_compute. reflexivity. Qed.

Example translate_success :
  result_of (translate_to_english
               (mock_env (reply_with (Json.text "{'translation': 'quantum'}"))
                         unreachable unreachable)
               cjk_query)
  = Normal (PStr (py "quantum")).
Proof. vm_compute. reflexivity. Qed.

(** ** Traces only grow *)

Lemma grows_silent {A} (c : M A) : silent c -> grows c.
Proof. intros H t. exists []. rewrite (H t), app_nil_r. reflexivity. Qed.

Lemma grows_emit ev : grows (emit ev).
Proof. intros t. exists [ev]. reflexivity. Qed.

Lemma grows_bind {A B} (c : M A) (k : A -> M B) :
  grows c -> (forall a, grows (k a)) -> grows (bind c k).
Proof.
  intros Hc Hk t. unfold bind. destruct (Hc t) as [tl1 H1].
  destruct (c t) as [[a|e] t1]; simpl in H1; subst t1.
  - destruct (Hk a (t ++ tl1)) as [tl2 H2]. exists (tl1 ++ tl2).
    rewrite H2, app_assoc. reflexivity.
  - exists tl1. reflexivity.
Qed.

Lemma grows_try_except {A} (body : M A) clause handler :
  grows body -> (forall e, grows (handler e)) -> grows (try_except body clause handler).
Proof.
  intros Hb Hh t. unfold try_except. destruct (Hb t) as [tl1 H1].
  destruct (body t) as [[a|e] t1]; simpl in H1; subst t1.
  - exists tl1. reflexivity.
  - destruct (catches clause e).
    + destruct (Hh e (t ++ tl1)) as [tl2 H2]. exists (tl1 ++ tl2).
      rewrite H2, app_assoc. reflexivity.
    + exists tl1. reflexivity.
Qed.

(** ** search_engine.py *)

Lemma search_never_raises env engine_type query timeout limit :
  never_raises (SearchEngine env engine_type query timeout limit).
Proof.
  destruct engine_type; simpl.
  - apply try_except_bound_Exception_total. intros b e.
    do 2 apply emit_then_never_raises. apply ret_never_raises.
  - apply try_except_Exception_total. intros e.
    apply emit_then_never_raises, ret_never_raises.
Qed.

Lemma search_on_provider_exception env engine_type query timeout limit e t :
  provider_call env engine_type query timeout limit = Raise e ->
  fst (SearchEngine env engine_type query timeout limit t) = Normal empty_response.
Proof.
  intros H. destruct engine_type; simpl in *.
  - unfold Firecrawl.search, try_except_bound, bind, emit, lift; simpl.
    rewrite H. reflexivity.
  - unfold Tavily.search, try_except, bind, emit, lift; simpl.
    rewrite H. reflexivity.
Qed.

(** C2.  For both backends and every query, [search] returns normally; and
    when the provider call raises, the value returned is [{"data": []}]: an
    empty hit list and no [answer] key. *)
Theorem search_gateway_normalization
        (env : Env) (engine_type : SearchEngineType)
        (query : pyval) (timeout limit : Z) (t : trace) :
  raises (fst (SearchEngine env engine_type query timeout limit t)) = false
  /\ forall e,
       provider_call env engine_type query timeout limit = Raise e ->
       fst (SearchEngine env engine_type query timeout limit t)
       = Normal (PDict [(py "data", PList [])])
       /\ py_in_dict (py "answer") (PDict [(py "data", PList [])]) = false.
Proof.
  split.
  - apply search_never_raises.
  - intros e H. split; [|reflexivity].
    exact (search_on_provider_exception env engine_type query timeout limit e t H).
Qed.

Lemma search_gateway_normalization_witness :
  let env := mock_env unreachable unreachable unreachable in
  let q := PStr (py "quantum computing") in
  provider_call env TAVILY q 15000 5 = Raise (mkExn SDKError (py "Connection error."))
  /\ fst (SearchEngine env TAVILY q 15000 5 []) = Normal (PDict [(py "data", PList [])])
  /\ provider_call env FIRECRAWL q 15000 5 = Raise (mkExn SDKError (py "Connection error."))
  /\ fst (SearchEngine env FIRECRAWL q 15000 5 []) = Normal (PDict [(py "data", PList [])]).
Proof.
  intros env q.
  split; [reflexivity|]. split.
  - apply (proj2 (search_gateway_normalization env TAVILY q 15000 5 [])
             (mkExn SDKError (py "Connection error."))).
    reflexivity.
  - split; [reflexivity|].
    apply (proj2 (search_gateway_normalization env FIRECRAWL q 15000 5 [])
             (mkExn SDKError (py "Connection error."))).
    reflexivity.
Defined.

(** A failure inside the normalisation is absorbed as well: a Tavily hit
    whose [published_date] is [null] cannot be concatenated. *)
Example tavily_malformed_payload :
  result_of (Tavily.search
               (mock_env unreachable unreachable
                  (fun _ => Json.decode
                     (Json.text "{'results': [{'published_date': null, 'content': 'x'}]}")))
               (PStr (py "q")) 15000 5)
  = Normal empty_response.
Proof. vm_compute. reflexivity. Qed.

(** [Firecrawl.search] builds its provider request from the query alone. *)
Lemma firecrawl_request_without_limit query timeout limit timeout' limit' :
  Firecrawl.request query timeout limit = Firecrawl.request query timeout' limit'.
Proof. reflexivity. Qed.

(** C5.  [Firecrawl.search] behaves the same for every [limit]: the
    argument reaches neither the provider request nor the normalisation of
    the response.  With [limit=1] and a provider that answers with three
    hits, all three come back, and the recorded request carries the query
    only. *)
Theorem firecrawl_search_ignores_limit :
  (forall (env : Env) (query : pyval) (timeout limit limit' : Z) (t : trace),
      Firecrawl.search env query timeout limit t
      = Firecrawl.search env query timeout limit' t)
  /\ run (Firecrawl.search
            (mock_env unreachable
               (fun _ => Json.decode
                  (Json.text "{'data': [{'url': 'a'}, {'url': 'b'}, {'url': 'c'}]}"))
               unreachable)
            (PStr (py "q")) 15000 1)
     = (Normal (PDict [(py "data",
                        PList [PDict [(py "url", PStr (py "a"))];
                               PDict [(py "url", PStr (py "b"))];
                               PDict [(py "url", PStr (py "c"))]])]),
        [EvFirecrawl {| fc_query := PStr (py "q") |}]).
Proof. split; [reflexivity | vm_compute; reflexivity]. Qed.

Lemma tavily_item_silent item : silent (Tavily.format_item item).
Proof.
  unfold Tavily.format_item.
  repeat (apply silent_bind; [apply silent_lift | intros ?]).
  apply silent_ret.
Qed.

(** The sibling backend: [Tavily.search] hands [limit] to the provider as
    [max_results]: the request is the first event it records. *)
Lemma tavily_search_passes_limit env query timeout limit t :
  exists tail,
    snd (Tavily.search env query timeout limit t)
    = t ++ EvTavily (Tavily.request query timeout limit) :: tail
    /\ max_results (Tavily.request query timeout limit) = limit.
Proof.
  set (req := Tavily.request query timeout limit).
  assert (G : forall k : pyval -> M pyval, (forall r, grows (k r)) ->
              forall handler, (forall e, grows (handler e)) ->
              grows (try_except (r <- lift (tavily_client_search env req) ;; k r)
                                Except_Exception handler)).
  { intros k Hk handler Hh. apply grows_try_except; [|exact Hh].
    apply grows_bind; [apply grows_silent, silent_lift | exact Hk]. }
  match goal with
  | |- context [Tavily.search _ _ _ _ _] =>
      unfold Tavily.search; fold req
  end.
  match goal with
  | |- context [try_except (bind (bind (emit ?ev) ?c) ?k) ?cl ?h t] =>
      change (try_except (bind (bind (emit ev) c) k) cl h t)
        with (try_except (bind (c tt) k) cl h (t ++ [ev]));
      destruct (G k) with (handler := h) (t := t ++ [ev]) as [tail Htail]
  end.
  - intros r. apply grows_bind; [apply grows_silent, silent_lift|]. intros results.
    destruct (truthy results).
    + apply grows_silent.
      apply silent_bind; [apply silent_lift|]. intros items.
      apply silent_bind; [apply silent_for_each, tavily_item_silent|]. intros fd.
      apply silent_bind; [apply silent_lift|]. intros a. apply silent_ret.
    + apply grows_bind; [apply grows_emit|]. intros _. apply grows_silent, silent_ret.
  - intros e. apply grows_bind; [apply grows_emit|]. intros _.
    apply grows_silent, silent_ret.
  - exists tail. split; [|reflexivity].
    simpl in Htail. rewrite Htail, <- app_assoc. reflexivity.
Qed.

(** ** feedback.py: the context builder *)

Lemma comprehension_hits env items : forall mds t,
  map hit_markdown items = map Some mds ->
  comprehension (hit_is_kept) (hit_content env) items t
  = (Normal (trimmed_contents env mds), t).
Proof.
  induction items as [|item items IH]; intros [|md mds] t H; try discriminate H.
  - reflexivity.
  - simpl in H. injection H as Hi Hr.
    destruct item as [| | | | |d|]; try discriminate Hi. simpl in Hi.
    destruct (lookup (py "markdown") d) as [[| | |s| | |]|] eqn:El; try discriminate Hi.
    injection Hi as ->.
    cbn [comprehension]. unfold bind at 1.
    unfold hit_is_kept at 1, bind, lift, ret, py_get. rewrite El.
    unfold trimmed_contents. cbn [filter truthy nonempty].
    destruct md as [|c md].
    + apply (IH mds t Hr).
    + unfold hit_content at 1, bind, lift, py_get. rewrite El. cbn [call_trim_prompt].
      fold (bind (A:=list pystr) (B:=list pystr)).
      specialize (IH mds t Hr). unfold bind in IH |- *. rewrite IH.
      reflexivity.
Qed.

Lemma search_context_hits env d items mds t :
  lookup (py "data") d = Some (PList items) ->
  map hit_markdown items = map Some mds ->
  search_context env (PDict d) t
  = (Normal (py "\n\nHere is some background information about the topic:\n"
             ++ concat (map content_block (trimmed_contents env mds))
             ++ py_str env (answer_of d)), t).
Proof.
  intros Hd Hm. unfold search_context.
  unfold bind at 1, lift at 1, py_getitem. rewrite Hd.
  unfold bind at 1, lift at 1, py_iter.
  unfold bind at 1. rewrite (comprehension_hits env items mds t Hm).
  reflexivity.
Qed.

Lemma concat_map_split {A B} (f : A -> list B) (x : A) (l : list A) :
  In x l ->
  exists l1 l2, concat (map f l) = concat (map f l1) ++ f x ++ concat (map f l2).
Proof.
  intros H. apply in_split in H. destruct H as (l1 & l2 & ->).
  exists l1, l2. rewrite map_app, concat_app. reflexivity.
Qed.

(** The context with its delimiters and its budget written out. *)
Lemma search_context_blocks env d items mds t :
  lookup (py "data") d = Some (PList items) ->
  map hit_markdown items = map Some mds ->
  search_context env (PDict d) t
  = (Normal (py "\n\nHere is some background information about the topic:\n"
             ++ concat (map (fun md => py "<content>\n" ++ trim_prompt env md 15000
                                       ++ py "\n</content>")
                            (filter nonempty mds))
             ++ py_str env (answer_of d)), t).
Proof.
  intros Hd Hm. rewrite (search_context_hits env d items mds t Hd Hm).
  unfold trimmed_contents. rewrite map_map. reflexivity.
Qed.

Lemma occurs_in_length (needle text : pystr) :
  occurs_in needle text -> length needle <= length text.
Proof.
  intros (before & after & ->). rewrite !length_app. lia.
Qed.

(** C8.  Under the contract of [trim_prompt], the context built from a
    search result is the introduction, then one block
    "<content>\n...\n</content>" per hit with non-empty markdown holding
    that hit's markdown trimmed, on its own, to the budget of 15000, then
    the answer.  For a hit whose markdown is longer than 15000, the context
    holds the block with its trimmed text, that text is at most 15000 long,
    is not the original text and does not contain it. *)
Theorem context_truncation_bound
        (env : Env) (d : list (pystr * pyval)) (items : list pyval)
        (mds : list pystr) (t : trace) :
  trim_prompt_contract env ->
  lookup (py "data") d = Some (PList items) ->
  map hit_markdown items = map Some mds ->
  exists context,
    search_context env (PDict d) t = (Normal context, t)
    /\ context
       = py "\n\nHere is some background information about the topic:\n"
         ++ concat (map (fun md => py "<content>\n" ++ trim_prompt env md 15000
                                   ++ py "\n</content>")
                        (filter nonempty mds))
         ++ py_str env (answer_of d)
    /\ Forall (fun md => length (trim_prompt env md 15000) <= 15000) mds
    /\ forall md,
         In md mds -> 15000 < length md ->
         occurs_in (py "<content>\n" ++ trim_prompt env md 15000 ++ py "\n</content>")
                   context
         /\ length (trim_prompt env md 15000) <= 15000
         /\ trim_prompt env md 15000 <> md
         /\ ~ occurs_in md (trim_prompt env md 15000).
Proof.
  intros Hc Hd Hm. eexists.
  split; [apply (search_context_blocks env d items mds t Hd Hm)|].
  set (budget := 15000). clearbody budget.
  split; [reflexivity|]. split.
  - apply Forall_forall. intros md _. apply Hc.
  - intros md Hin Hlen. split; [|split; [|split]].
    + assert (Hne : nonempty md = true).
      { destruct md; [inversion Hlen | reflexivity]. }
      assert (Hin' : In md (filter nonempty mds)) by (apply filter_In; auto).
      destruct (concat_map_split
                  (fun m => py "<content>\n" ++ trim_prompt env m budget
                            ++ py "\n</content>") md _ Hin')
        as (l1 & l2 & E).
      exists (py "\n\nHere is some background information about the topic:\n"
              ++ concat (map (fun m => py "<content>\n" ++ trim_prompt env m budget
                                       ++ py "\n</content>") l1)),
             (concat (map (fun m => py "<content>\n" ++ trim_prompt env m budget
                                    ++ py "\n</content>") l2)
              ++ py_str env (answer_of d)).
      apply (f_equal (fun z => py "\n\nHere is some background information about the topic:\n"
                               ++ z ++ py_str env (answer_of d))) in E.
      etransitivity; [exact E|]. rewrite <- !app_assoc. reflexivity.
    + apply Hc.
    + intros E. pose proof (Hc md budget) as Hb. rewrite E in Hb. lia.
    + intros Ho. apply occurs_in_length in Ho.
      pose proof (Hc md budget) as Hb. lia.
Qed.

Lemma context_truncation_bound_witness :
  let env := mock_env unreachable unreachable unreachable in
  trim_prompt_contract env
  /\ 15000 < length long_text
  /\ search_context env (PDict [(py "data", PList [long_hit])]) []
     = (Normal (py "\n\nHere is some background information about the topic:\n"
                ++ py "<content>\n" ++ repeat 97%N 15000 ++ py "\n</content>"),
        [])
  /\ length (trim_prompt env long_text 15000) <= 15000
  /\ trim_prompt env long_text 15000 <> long_text
  /\ ~ occurs_in long_text (trim_prompt env long_text 15000).
Proof.
  intros env.
  assert (Hc : trim_prompt_contract env).
  { intros text size. apply firstn_le_length. }
  assert (Hl : 15000 < length long_text).
  { unfold long_text. rewrite repeat_length. apply Nat.lt_succ_diag_r. }
  split; [exact Hc|]. split; [exact Hl|].
  destruct (context_truncation_bound env [(py "data", PList [long_hit])]
              [long_hit] [long_text] [] Hc eq_refl eq_refl)
    as (context & Hrun & Hctx & _ & Hhit).
  destruct (Hhit long_text (or_introl eq_refl) Hl) as (_ & Hlen & Hne & Hno).
  split; [|split; [exact Hlen | split; [exact Hne | exact Hno]]].
  rewrite Hrun, Hctx. vm_compute. reflexivity.
Defined.

(** The budget is spent per hit: two long hits give a context more than
    twice the budget long. *)
Example context_of_two_long_hits :
  match result_of (search_context (mock_env unreachable unreachable unreachable)
                     (PDict [(py "data", PList [long_hit; long_hit])])) with
  | Normal context => 2 * content_budget <? length context
  | Raise _ => false
  end = true.
Proof. vm_compute. reflexivity. Qed.

(** ** What [Tavily.search] returns *)

Lemma tavily_item_hit item t v t' :
  Tavily.format_item item t = (Normal v, t') -> exists md, hit_markdown v = Some md.
Proof.
  unfold Tavily.format_item, bind, lift, ret.
  destruct (py_get item (py "title") (PStr [])) as [title|]; [|discriminate].
  destruct (py_get item (py "url") (PStr [])) as [url|]; [|discriminate].
  destruct (py_get item (py "published_date") (PStr [])) as [pd|]; [|discriminate].
  destruct (py_add pd (PStr (py "\n"))) as [dated|]; [|discriminate].
  destruct (py_get item (py "content") (PStr [])) as [body|]; [|discriminate].
  destruct (py_add dated body) as [markdown|] eqn:Ea; [|discriminate].
  intros H. injection H as <- _.
  unfold py_add in Ea.
  destruct dated; try discriminate Ea. destruct body; try discriminate Ea.
  injection Ea as <-. eexists. reflexivity.
Qed.

Lemma for_each_tavily_hits items : forall t ys t',
  for_each Tavily.format_item items t = (Normal ys, t') ->
  exists mds, map hit_markdown ys = map Some mds.
Proof.
  induction items as [|x xs IH]; intros t ys t' H; simpl in H.
  - injection H as <- _. exists []. reflexivity.
  - unfold bind in H.
    destruct (Tavily.format_item x t) as [[y|e] t1] eqn:Ex; [|discriminate].
    destruct (for_each Tavily.format_item xs t1) as [[ys'|e] t2] eqn:Exs; [|discriminate].
    injection H as <- _.
    destruct (tavily_item_hit x t y t1 Ex) as [md Hmd].
    destruct (IH t1 ys' t2 Exs) as [mds Hmds].
    exists (md :: mds). simpl. rewrite Hmd, Hmds. reflexivity.
Qed.

(** Whatever the provider does, [Tavily.search] returns a dict whose [data]
    is a list of hits with a textual [markdown]. *)
Lemma tavily_search_shape env query timeout limit t :
  exists d items mds t',
    Tavily.search env query timeout limit t = (Normal (PDict d), t')
    /\ lookup (py "data") d = Some (PList items)
    /\ map hit_markdown items = map Some mds.
Proof.
  unfold Tavily.search, try_except.
  match goal with
  | |- context [match ?body t with _ => _ end] => destruct (body t) as [[v|e] t1] eqn:E
  end.
  - unfold bind at 1 2, emit, lift at 1 in E.
    destruct (tavily_client_search env _) as [response|]; [|discriminate].
    unfold bind at 1, lift at 1 in E.
    destruct (py_get response (py "results") (PList [])) as [results|]; [|discriminate].
    destruct (truthy results).
    + unfold bind at 1, lift at 1 in E.
      destruct (py_iter results) as [its|]; [|discriminate].
      unfold bind at 1 in E.
      destruct (for_each Tavily.format_item its _) as [[fd|] t2] eqn:Ef; [|discriminate].
      unfold bind, lift, ret in E.
      destruct (py_get response (py "answer") (PStr [])) as [a|]; [|discriminate].
      injection E as <- <-.
      destruct (for_each_tavily_hits _ _ _ _ Ef) as [mds Hm].
      eexists _, fd, mds, _.
      split; [reflexivity|]. split; [reflexivity | exact Hm].
    + unfold bind, emit, ret in E. injection E as <- <-.
      eexists _, [], [], _. split; [reflexivity|]. split; reflexivity.
  - simpl. unfold bind, emit, ret.
    eexists _, [], [], _. split; [reflexivity|]. split; reflexivity.
Qed.

(** ** feedback.py: the pipeline *)

(** Lines 21-36 with search enhancement on: the translated query goes to
    Tavily, and the context is built from what [Tavily.search] returned. *)
Lemma enhance_with_search env query t :
  exists query' t1 d items mds t2,
    translate_to_english env query t = (Normal query', t1)
    /\ Tavily.search env query' default_timeout 5%Z t1 = (Normal (PDict d), t2)
    /\ lookup (py "data") d = Some (PList items)
    /\ map hit_markdown items = map Some mds
    /\ forall context,
         context = py "\n\nHere is some background information about the topic:\n"
                   ++ concat (map content_block (trimmed_contents env mds))
                   ++ py_str env (answer_of d) ->
         enhance env query true t
         = (Normal (query', context),
            t2 ++ [EvLog INFO [Lit (py "Search result: "); FmtVal (PStr context)]]).
Proof.
  destruct (never_raises_normal _ (translate_never_raises env query) t)
    as (q' & t1 & Et).
  destruct (tavily_search_shape env q' default_timeout 5%Z t1)
    as (d & items & mds & t2 & Es & Hd & Hm).
  exists q', t1, d, items, mds, t2.
  split; [exact Et|]. split; [exact Es|]. split; [exact Hd|]. split; [exact Hm|].
  intros context ->. unfold enhance.
  unfold bind at 1. rewrite Et.
  unfold bind at 1. simpl SearchEngine. rewrite Es.
  unfold bind at 1. rewrite (search_context_hits env d items mds t2 Hd Hm).
  reflexivity.
Qed.

(** Lines 21-36 always hand a query and a context to the prompt. *)
Lemma enhance_total env query use_search_enhancement t :
  exists query' context t',
    enhance env query use_search_enhancement t = (Normal (query', context), t').
Proof.
  destruct use_search_enhancement.
  - destruct (enhance_with_search env query t)
      as (q' & t1 & d & items & mds & t2 & _ & _ & _ & _ & H).
    eexists _, _, _. apply H. reflexivity.
  - eexists _, _, _. reflexivity.
Qed.

Lemma generate_feedback_after_enhance env query use_search_enhancement t query' context t1 :
  enhance env query use_search_enhancement t = (Normal (query', context), t1) ->
  generate_feedback env query use_search_enhancement t
  = (response <- chat env (feedback_request env query' context) ;;
     parse_questions env response) t1.
Proof. intros H. unfold generate_feedback. unfold bind at 1. rewrite H. reflexivity. Qed.

(** The parse step records prints only. *)
Lemma parse_questions_trace env response t :
  exists tail,
    snd (parse_questions env response t) = t ++ tail
    /\ model_requests tail = [] /\ search_calls tail = 0.
Proof.
  assert (Hnil : exists tail, t = t ++ tail
                              /\ model_requests tail = [] /\ search_calls tail = 0).
  { exists []. rewrite app_nil_r. repeat split. }
  unfold parse_questions, try_except, bind, lift, emit, ret.
  destruct (first_content response) as [c|e]; simpl;
    [destruct (loads env c) as [result|e]; simpl;
     [destruct (py_get result (py "questions") (PList [])) as [qs|e]; simpl|]|];
    try apply Hnil;
    (destruct (exn_class_eqb (exn_cls e) JSONDecodeError); simpl; [|apply Hnil]);
    eexists; rewrite <- ?app_assoc; simpl; repeat split.
Qed.

Lemma model_requests_app t1 t2 :
  model_requests (t1 ++ t2) = model_requests t1 ++ model_requests t2.
Proof. unfold model_requests. apply flat_map_app. Qed.

Lemma search_calls_app t1 t2 :
  search_calls (t1 ++ t2) = search_calls t1 + search_calls t2.
Proof. unfold search_calls. rewrite filter_app, length_app. reflexivity. Qed.

Lemma generate_feedback_off env query t :
  generate_feedback env query false t
  = (response <- chat env (feedback_request env (PStr query) []) ;;
     parse_questions env response) t.
Proof.
  apply (generate_feedback_after_enhance env query false t (PStr query) [] t).
  reflexivity.
Qed.

Lemma generate_feedback_off_requests env query t :
  model_requests (snd (generate_feedback env query false t))
  = model_requests t ++ [feedback_request env (PStr query) []].
Proof.
  rewrite generate_feedback_off. unfold chat, bind at 1 2, emit, lift.
  destruct (chat_completions_create env _) as [r|e]; simpl.
  - destruct (parse_questions_trace env r
                (t ++ [EvChat (feedback_request env (PStr query) [])]))
      as (tail & Ht & Hm & _).
    etransitivity; [apply (f_equal model_requests); exact Ht|].
    rewrite !model_requests_app, Hm, app_nil_r. reflexivity.
  - rewrite model_requests_app. reflexivity.
Qed.

Lemma generate_feedback_off_searches env query t :
  search_calls (snd (generate_feedback env query false t)) = search_calls t.
Proof.
  rewrite generate_feedback_off. unfold chat, bind at 1 2, emit, lift.
  destruct (chat_completions_create env _) as [r|e]; simpl.
  - destruct (parse_questions_trace env r
                (t ++ [EvChat (feedback_request env (PStr query) [])]))
      as (tail & Ht & _ & Hs).
    etransitivity; [apply (f_equal search_calls); exact Ht|].
    rewrite !search_calls_app, Hs. unfold search_calls. simpl. lia.
  - rewrite search_calls_app. unfold search_calls. simpl. lia.
Qed.

(** C9.  With [use_search_enhancement=False], [generate_feedback] issues
    exactly one model call and no search call; the user message of that call
    embeds the query followed by an empty context; and when the response
    body decodes to a JSON object, the result is its [questions] entry. *)
Theorem generate_feedback_without_enhancement (env : Env) (query : pystr) (t : trace) :
  let req := feedback_request env (PStr query) [] in
  let final := generate_feedback env query false t in
  model_requests (snd final) = model_requests t ++ [req]
  /\ model_calls (snd final) = model_calls t + 1
  /\ search_calls (snd final) = search_calls t
  /\ map content (messages req)
     = [ system_prompt env;
         py "Given this research topic: " ++ query
         ++ py ", generate 3-5 follow-up questions to better understand the user's research needs. Return the response as a JSON object with a 'questions' array field." ]
  /\ forall r body d qs,
       chat_completions_create env req = Normal r ->
       first_content r = Normal (Some body) ->
       json_loads env body = Normal (PDict d) ->
       lookup (py "questions") d = Some qs ->
       fst final = Normal qs.
Proof.
  intros req final. subst final.
  split; [apply generate_feedback_off_requests|].
  split; [unfold model_calls; rewrite generate_feedback_off_requests, length_app;
          reflexivity|].
  split; [apply generate_feedback_off_searches|].
  split; [reflexivity|].
  intros r body d qs Hr Hc Hj Hq.
  rewrite generate_feedback_off. unfold chat, bind at 1 2, emit, lift. fold req.
  rewrite Hr.
  unfold parse_questions, try_except, bind, lift. rewrite Hc. simpl.
  rewrite Hj. simpl. rewrite Hq. reflexivity.
Qed.

Lemma generate_feedback_without_enhancement_witness :
  let env := mock_env (reply_with three_questions) unreachable unreachable in
  let query := py "What is quantum computing?" in
  model_requests (trace_of (generate_feedback env query false))
  = [feedback_request env (PStr query) []]
  /\ search_calls (trace_of (generate_feedback env query false)) = 0
  /\ result_of (generate_feedback env query false)
     = Normal (PList [PStr (py "Q1?"); PStr (py "Q2?"); PStr (py "Q3?")]).
Proof.
  intros env query.
  destruct (generate_feedback_without_enhancement env query []) as (Hm & _ & Hs & _ & Hr).
  split; [exact Hm|]. split; [exact Hs|].
  apply (Hr {| choices := [Some three_questions] |} three_questions
            [(py "questions", PList [PStr (py "Q1?"); PStr (py "Q2?"); PStr (py "Q3?")])]).
  - reflexivity.
  - reflexivity.
  - vm_compute. reflexivity.
  - reflexivity.
Defined.



(** The same two cases with search enhancement on and a provider that
    answers. *)
Example generate_feedback_malformed_after_search :
  result_of (generate_feedback
               (mock_env (reply_with (py "<html>502</html>")) unreachable
                  (fun _ => Json.decode
                     (Json.text "{'results': [{'title': 'T', 'url': 'u', 'content': 'c'}], 'answer': 'a'}")))
               (py "What is quantum computing?") true)
  = Normal (PList []).
Proof. vm_compute. reflexivity. Qed.

Example generate_feedback_object_without_questions :
  result_of (generate_feedback
               (mock_env (reply_with (Json.text "{'items': ['Q1?']}")) unreachable unreachable)
               (py "What is quantum computing?") true)
  = Normal (PList []).
Proof. vm_compute. reflexivity. Qed.

(** The whole pipeline with enhancement on: one translation call, one
    Tavily request for the translated query with [max_results=5], then the
    final call, whose user message carries the query and the context. *)
Example generate_feedback_with_enhancement :
  let env := mock_env (scripted_model (Json.text "{'translation': 'quantum'}")
                                      three_questions)
                      unreachable
                      (fun _ => Json.decode
                         (Json.text "{'results': [{'title': 'T', 'url': 'u', 'content': 'c'}, {'title': 'E', 'content': ''}], 'answer': 'a'}")) in
  result_of (generate_feedback env cjk_query true)
  = Normal (PList [PStr (py "Q1?"); PStr (py "Q2?"); PStr (py "Q3?")])
  /\ match trace_of (generate_feedback env cjk_query true) with
     | [EvChat translation; EvLog INFO _; EvTavily searched; EvLog INFO _; EvChat final] =>
         translation = translation_request env cjk_query
         /\ searched = Tavily.request (PStr (py "quantum")) 15000 5
         /\ final = feedback_request env (PStr (py "quantum"))
                      (py "\n\nHere is some background information about the topic:\n<content>\n\nc\n</content><content>\n\n\n</content>a")
     | _ => False
     end.
Proof. vm_compute. repeat split. Qed.

(** C1.  A failure of the final model call is not handled by
    [generate_feedback]: the exception of the Model Client reaches the
    caller. *)
Theorem generate_feedback_propagates_model_failure :
  run (generate_feedback (mock_env unreachable unreachable unreachable)
         (py "What is quantum computing?") false)
  = (Raise (mkExn SDKError (py "Connection error.")),
     [ EvChat (feedback_request (mock_env unreachable unreachable unreachable)
                 (PStr (py "What is quantum computing?")) []) ]).
Proof. vm_compute. reflexivity. Qed.

(** The same holds for every environment, query and mode. *)
Lemma generate_feedback_raises_with_model env query use_search_enhancement t query' context t1 e :
  enhance env query use_search_enhancement t = (Normal (query', context), t1) ->
  chat_completions_create env (feedback_request env query' context) = Raise e ->
  fst (generate_feedback env query use_search_enhancement t) = Raise e.
Proof.
  intros He Hr. rewrite (generate_feedback_after_enhance _ _ _ _ _ _ _ He).
  unfold chat, bind, emit, lift. rewrite Hr. reflexivity.
Qed.


(** Exceptions other than [JSONDecodeError] leave the parse step as well:
    a body that is a JSON array has no [get]. *)
Example generate_feedback_array_body :
  result_of (generate_feedback
               (mock_env (reply_with (Json.text "['Q1?', 'Q2?']")) unreachable unreachable)
               (py "What is quantum computing?") false)
  = Raise (mkExn AttributeError (py "object has no attribute 'get'")).
Proof. vm_compute. reflexivity. Qed.

(** ** app.py: the combined query *)

Lemma join_blocks_nonempty (p : pystr * pystr) (ps : list (pystr * pystr)) :
  join (py "\n") (map ResearchSession.qa_block (p :: ps)) <> [].
Proof.
  destruct ps; simpl; unfold ResearchSession.qa_block; simpl; discriminate.
Qed.

Lemma qa_text_repeated_pairs (qs ans : list pystr) :
  join (py "\n") (map ResearchSession.qa_block (combine qs ans)) = repeated_pairs qs ans.
Proof.
  revert ans. induction qs as [|q qs IH]; intros [|a ans]; try reflexivity.
  cbn [combine map repeated_pairs]. rewrite <- IH.
  destruct (combine qs ans) as [|p ps] eqn:E.
  - simpl. unfold ResearchSession.qa_block. simpl. rewrite app_nil_r. reflexivity.
  - pose proof (join_blocks_nonempty p ps) as Hne.
    cbn [map] in Hne |- *.
    change (join (py "\n") (ResearchSession.qa_block (q, a) :: ResearchSession.qa_block p :: map ResearchSession.qa_block ps))
      with (ResearchSession.qa_block (q, a) ++ py "\n"
            ++ join (py "\n") (ResearchSession.qa_block p :: map ResearchSession.qa_block ps)).
    destruct (join (py "\n") (ResearchSession.qa_block p :: map ResearchSession.qa_block ps)) as [|c rest];
      [contradiction|].
    unfold ResearchSession.qa_block at 1. simpl fst. simpl snd.
    rewrite <- !app_assoc. reflexivity.
Qed.

(** C7.  For query "Topic", questions Q1, Q2 and answers A1, A2 the combined
    query is exactly the framed text of the specification; and for every session it
    is the framing line pair for the query followed by the repeated
    question/answer blocks. *)
Theorem combined_query_framing :
  ResearchSession.get_combined_query
    (ResearchSession.set_answers
       (ResearchSession.set_questions (ResearchSession.set_query ResearchSession.init (py "Topic")) [py "Q1"; py "Q2"])
       [py "A1"; py "A2"])
  = py "Initial Query: Topic\nFollow-up Questions and Answers:\nQ: Q1\nA: A1\nQ: Q2\nA: A2"
  /\ forall s : ResearchSession.t,
       ResearchSession.get_combined_query s
       = py "Initial Query: " ++ ResearchSession.query s
         ++ py "\nFollow-up Questions and Answers:\n"
         ++ repeated_pairs (ResearchSession.questions s) (ResearchSession.answers s).
Proof.
  split; [vm_compute; reflexivity|].
  intros s. unfold ResearchSession.get_combined_query.
  rewrite qa_text_repeated_pairs. reflexivity.
Qed.

Lemma nth_error_combine {A B} (l : list A) (l' : list B) : forall i,
  i < Nat.min (length l) (length l') ->
  nth_error (combine l l') i
  = match nth_error l i, nth_error l' i with
    | Some x, Some y => Some (x, y)
    | _, _ => None
    end.
Proof.
  revert l'. induction l as [|x l IH]; intros [|y l'] i Hi; simpl in Hi; try lia.
  destruct i as [|i]; simpl; [reflexivity|].
  apply IH. lia.
Qed.

Lemma combine_firstn_min {A B} (l : list A) (l' : list B) :
  combine (firstn (Nat.min (length l) (length l')) l)
          (firstn (Nat.min (length l) (length l')) l')
  = combine l l'.
Proof.
  revert l'. induction l as [|x l IH]; intros [|y l']; simpl; try reflexivity.
  f_equal. apply IH.
Qed.

Lemma combine_firstn_left {A B} (l : list A) (l' : list B) :
  combine (firstn (length l') l) l' = combine l l'.
Proof.
  revert l'. induction l as [|x l IH]; intros [|y l']; simpl; try reflexivity.
  f_equal. apply IH.
Qed.

(** C10.  [get_combined_query] pairs the i-th question with the i-th answer
    and stops at the shorter list: the text is the one of the two lists cut
    to their common length, and with fewer answers than questions the
    trailing questions leave no trace in it. *)
Theorem combined_query_positional (s : ResearchSession.t) :
  let qs := ResearchSession.questions s in
  let ans := ResearchSession.answers s in
  let n := Nat.min (length qs) (length ans) in
  exists pairs,
    ResearchSession.get_combined_query s
    = py "Initial Query: " ++ ResearchSession.query s
      ++ py "\nFollow-up Questions and Answers:\n"
      ++ join (py "\n") (map ResearchSession.qa_block pairs)
    /\ length pairs = n
    /\ (forall i, i < n ->
          exists q a, nth_error qs i = Some q /\ nth_error ans i = Some a
                      /\ nth_error pairs i = Some (q, a))
    /\ ResearchSession.get_combined_query s
       = ResearchSession.get_combined_query
           (ResearchSession.set_answers (ResearchSession.set_questions s (firstn n qs)) (firstn n ans))
    /\ (length ans <= length qs ->
        ResearchSession.get_combined_query s
        = ResearchSession.get_combined_query (ResearchSession.set_questions s (firstn (length ans) qs))).
Proof.
  intros qs ans n. exists (combine qs ans).
  split; [reflexivity|]. split; [apply length_combine|]. split; [|split].
  - intros i Hi. rewrite (nth_error_combine qs ans i Hi).
    destruct (nth_error qs i) as [q|] eqn:Eq.
    + destruct (nth_error ans i) as [a|] eqn:Ea.
      * exists q, a. auto.
      * apply nth_error_None in Ea. unfold n in Hi. lia.
    + apply nth_error_None in Eq. unfold n in Hi. lia.
  - unfold ResearchSession.get_combined_query. simpl.
    fold qs ans. unfold n. rewrite combine_firstn_min. reflexivity.
  - intros Hle. unfold ResearchSession.get_combined_query. simpl.
    fold qs ans. rewrite combine_firstn_left. reflexivity.
Qed.

(** Three questions, the second answer left blank: the blank is filtered
    out before storage, so the third answer lands under the second question
    and the third question disappears. *)
Lemma combined_query_positional_witness :
  let s := on_start_research_async
             (ResearchSession.set_questions (ResearchSession.set_query ResearchSession.init (py "Topic"))
                                [py "Q1"; py "Q2"; py "Q3"])
             [py "A1"; py "  "; py "A3"] (py "en") 4 2 in
  ResearchSession.answers s = [py "A1"; py "A3"]
  /\ length (ResearchSession.answers s) <= length (ResearchSession.questions s)
  /\ ResearchSession.get_combined_query s
     = ResearchSession.get_combined_query (ResearchSession.set_questions s [py "Q1"; py "Q2"])
  /\ ResearchSession.get_combined_query s
     = py "Initial Query: Topic\nFollow-up Questions and Answers:\nQ: Q1\nA: A1\nQ: Q2\nA: A3".
Proof.
  intros s.
  destruct (combined_query_positional s) as (pairs & _ & _ & _ & _ & Hcut).
  split; [reflexivity|]. split; [simpl; lia|]. split.
  - apply Hcut. simpl. lia.
  - vm_compute. reflexivity.
Defined.

(** * Further properties *)

(** ** Computations that only log *)

Lemma logs_only_app t1 t2 : logs_only t1 -> logs_only t2 -> logs_only (t1 ++ t2).
Proof. unfold logs_only. intros H1 H2. rewrite forallb_app, H1, H2. reflexivity. Qed.

Lemma logs_only_no_requests tail :
  logs_only tail ->
  model_requests tail = [] /\ tavily_requests tail = []
  /\ firecrawl_requests tail = [] /\ search_calls tail = 0.
Proof.
  unfold logs_only, search_calls. induction tail as [|ev tail IH]; simpl; [auto|].
  intros H. apply andb_prop in H. destruct H as [Hev Ht].
  destruct (IH Ht) as (H1 & H2 & H3 & H4).
  destruct ev; try discriminate Hev; simpl; auto.
Qed.

Lemma appends_logs_silent {A} (c : M A) : silent c -> appends_logs c.
Proof. intros H t. exists []. rewrite (H t), app_nil_r. split; reflexivity. Qed.

Lemma appends_logs_log {A} lvl msg (c : M A) :
  appends_logs c -> appends_logs (emit (EvLog lvl msg) ;;; c).
Proof.
  intros H t. unfold bind, emit.
  destruct (H (t ++ [EvLog lvl msg])) as (tail & Ht & Hl).
  exists (EvLog lvl msg :: tail). rewrite Ht, <- app_assoc. split; [reflexivity|exact Hl].
Qed.

Lemma appends_logs_print {A} msg (c : M A) :
  appends_logs c -> appends_logs (emit (EvPrint msg) ;;; c).
Proof.
  intros H t. unfold bind, emit.
  destruct (H (t ++ [EvPrint msg])) as (tail & Ht & Hl).
  exists (EvPrint msg :: tail). rewrite Ht, <- app_assoc. split; [reflexivity|exact Hl].
Qed.

Lemma appends_logs_bind {A B} (c : M A) (k : A -> M B) :
  appends_logs c -> (forall a, appends_logs (k a)) -> appends_logs (bind c k).
Proof.
  intros Hc Hk t. unfold bind. destruct (Hc t) as (tl1 & H1 & L1).
  destruct (c t) as [[a|e] t1]; simpl in H1; subst t1.
  - destruct (Hk a (t ++ tl1)) as (tl2 & H2 & L2). exists (tl1 ++ tl2).
    rewrite H2, app_assoc. split; [reflexivity | now apply logs_only_app].
  - exists tl1. split; [reflexivity | exact L1].
Qed.

Lemma appends_logs_try_except {A} (body : M A) clause handler :
  appends_logs body -> (forall e, appends_logs (handler e)) ->
  appends_logs (try_except body clause handler).
Proof.
  intros Hb Hh t. unfold try_except. destruct (Hb t) as (tl1 & H1 & L1).
  destruct (body t) as [[a|e] t1]; simpl in H1; subst t1.
  - exists tl1. split; [reflexivity | exact L1].
  - destruct (catches clause e).
    + destruct (Hh e (t ++ tl1)) as (tl2 & H2 & L2). exists (tl1 ++ tl2).
      rewrite H2, app_assoc. split; [reflexivity | now apply logs_only_app].
    + exists tl1. split; [reflexivity | exact L1].
Qed.

(** A guarded call: the request is recorded first, then only log lines. *)
Lemma guarded_call_trace {A B} ev (o : outcome A) (k : A -> M B) clause handler t :
  (forall x, appends_logs (k x)) -> (forall e, appends_logs (handler e)) ->
  exists tail,
    snd (try_except (x <- (emit ev ;;; lift o) ;; k x) clause handler t)
    = t ++ ev :: tail
    /\ logs_only tail.
Proof.
  intros Hk Hh.
  assert (H : appends_logs (try_except (x <- lift o ;; k x) clause handler)).
  { apply appends_logs_try_except; [|exact Hh].
    apply appends_logs_bind; [apply appends_logs_silent, silent_lift | exact Hk]. }
  destruct (H (t ++ [ev])) as (tail & Ht & Hl).
  exists tail. split; [|exact Hl].
  change (try_except (x <- (emit ev ;;; lift o) ;; k x) clause handler t)
    with (try_except (x <- lift o ;; k x) clause handler (t ++ [ev])).
  rewrite Ht, <- app_assoc. reflexivity.
Qed.

Lemma guarded_call_trace_bound {A B} ev (o : outcome A) (k : A -> M B) clause handler t :
  (forall x, appends_logs (k x)) -> (forall b e, appends_logs (handler b e)) ->
  exists tail,
    snd (try_except_bound (emit ev ;;; lift o) k clause handler t) = t ++ ev :: tail
    /\ logs_only tail.
Proof.
  intros Hk Hh. unfold try_except_bound, bind, emit, lift.
  destruct o as [x|e].
  - destruct (Hk x (t ++ [ev])) as (tl1 & H1 & L1).
    destruct (k x (t ++ [ev])) as [[b|e] t1]; simpl in H1; subst t1.
    + exists tl1. rewrite <- app_assoc. split; [reflexivity | exact L1].
    + destruct (catches clause e).
      * destruct (Hh (Some x) e ((t ++ [ev]) ++ tl1)) as (tl2 & H2 & L2).
        exists (tl1 ++ tl2). rewrite H2, <- !app_assoc.
        split; [reflexivity | now apply logs_only_app].
      * exists tl1. rewrite <- app_assoc. split; [reflexivity | exact L1].
  - destruct (catches clause e).
    + destruct (Hh None e (t ++ [ev])) as (tl2 & H2 & L2).
      exists tl2. rewrite H2, <- app_assoc. split; [reflexivity | exact L2].
    + exists []. split; reflexivity.
Qed.

Lemma tavily_requests_app t1 t2 :
  tavily_requests (t1 ++ t2) = tavily_requests t1 ++ tavily_requests t2.
Proof. unfold tavily_requests. apply flat_map_app. Qed.

Lemma firecrawl_requests_app t1 t2 :
  firecrawl_requests (t1 ++ t2) = firecrawl_requests t1 ++ firecrawl_requests t2.
Proof. unfold firecrawl_requests. apply flat_map_app. Qed.

(** ** translate.py, further *)

Lemma translate_trace env query t :
  exists tail,
    snd (translate_to_english env query t)
    = t ++ (if existsb is_cjk query
            then EvChat (translation_request env query) :: tail else [])
    /\ logs_only tail.
Proof.
  unfold translate_to_english. destruct (existsb is_cjk query); simpl negb; cbv iota.
  - unfold chat. apply guarded_call_trace.
    + intros response. apply appends_logs_bind.
      * apply appends_logs_try_except.
        -- apply appends_logs_silent.
           repeat (apply silent_bind; [apply silent_lift | intros ?]). apply silent_lift.
        -- intros e. apply appends_logs_log, appends_logs_silent, silent_ret.
      * intros v. apply appends_logs_log, appends_logs_silent, silent_ret.
    + intros e. apply appends_logs_log, appends_logs_silent, silent_ret.
  - exists []. unfold try_except, ret. simpl. rewrite app_nil_r. split; reflexivity.
Qed.

(** [translate_to_english] never retries and never searches: it issues one
    model call, with the translation request, exactly when the query holds a
    character of U+4E00..U+9FFF, and none otherwise, whatever the call
    returns. *)
Theorem translate_single_model_call (env : Env) (query : pystr) (t : trace) :
  model_requests (snd (translate_to_english env query t))
  = model_requests t
    ++ (if existsb is_cjk query then [translation_request env query] else [])
  /\ search_calls (snd (translate_to_english env query t)) = search_calls t.
Proof.
  destruct (translate_trace env query t) as (tail & Ht & Hl).
  destruct (logs_only_no_requests tail Hl) as (Hm & _ & _ & Hs).
  rewrite Ht. destruct (existsb is_cjk query).
  - rewrite model_requests_app, search_calls_app.
    change (EvChat (translation_request env query) :: tail)
      with ([EvChat (translation_request env query)] ++ tail).
    rewrite model_requests_app, search_calls_app, Hm, Hs. simpl.
    rewrite Nat.add_0_r. split; reflexivity.
  - rewrite !app_nil_r. split; reflexivity.
Qed.

(** [translate_to_english] returns normally in every environment; when the
    query needed translation and the model answered with a JSON object
    holding a [translation] entry, the result is that entry; in every other
    case it is the original query. *)
Theorem translate_result (env : Env) (query : pystr) (t : trace) :
  raises (fst (translate_to_english env query t)) = false
  /\ (forall r body d v,
        existsb is_cjk query = true ->
        chat_completions_create env (translation_request env query) = Normal r ->
        first_content r = Normal (Some body) ->
        json_loads env body = Normal (PDict d) ->
        lookup (py "translation") d = Some v ->
        fst (translate_to_english env query t) = Normal v)
  /\ (~ (exists r body d v,
           existsb is_cjk query = true
           /\ chat_completions_create env (translation_request env query) = Normal r
           /\ first_content r = Normal (Some body)
           /\ json_loads env body = Normal (PDict d)
           /\ lookup (py "translation") d = Some v) ->
      fst (translate_to_english env query t) = Normal (PStr query)).
Proof.
  split; [apply translate_never_raises|]. split.
  - intros r body d v Hc Hr Hf Hj Hl.
    unfold translate_to_english, try_except at 1. rewrite Hc. simpl negb. cbv iota.
    unfold chat, try_except, bind, emit, lift, ret. rewrite Hr, Hf. simpl.
    rewrite Hj. simpl. rewrite Hl. reflexivity.
  - intros Hno.
    unfold translate_to_english, try_except at 1.
    destruct (existsb is_cjk query) eqn:Ec; simpl negb; cbv iota; [|reflexivity].
    unfold chat, try_except, bind, emit, lift, ret.
    destruct (chat_completions_create env (translation_request env query)) as [r|e] eqn:Er;
      simpl; [|reflexivity].
    destruct (first_content r) as [c|e] eqn:Efc; simpl.
    2:{ destruct (exn_class_eqb (exn_cls e) JSONDecodeError); reflexivity. }
    destruct (loads env c) as [result|e] eqn:El; simpl.
    2:{ destruct (exn_class_eqb (exn_cls e) JSONDecodeError); reflexivity. }
    destruct result as [| | | | |d|]; simpl; try reflexivity.
    destruct (lookup (py "translation") d) as [v|] eqn:Elk; [|reflexivity].
    exfalso. apply Hno.
    destruct c as [body|]; [|discriminate El].
    exists r, body, d, v. simpl in El. auto.
Qed.

Lemma translate_result_witness :
  let translated := mock_env (reply_with (Json.text "{'translation': 'quantum'}"))
                             unreachable unreachable in
  let refused := mock_env (reply_with (Json.text "{'error': 'no'}")) unreachable unreachable in
  fst (translate_to_english translated cjk_query []) = Normal (PStr (py "quantum"))
  /\ fst (translate_to_english refused cjk_query []) = Normal (PStr cjk_query).
Proof.
  intros translated refused. split.
  - apply (proj1 (proj2 (translate_result translated cjk_query []))
             {| choices := [Some (Json.text "{'translation': 'quantum'}")] |}
             (Json.text "{'translation': 'quantum'}")
             [(py "translation", PStr (py "quantum"))]).
    + reflexivity.
    + reflexivity.
    + reflexivity.
    + vm_compute. reflexivity.
    + reflexivity.
  - apply (proj2 (proj2 (translate_result refused cjk_query []))).
    intros (r & body & d & v & _ & Hr & Hf & Hj & Hl).
    injection Hr as <-. injection Hf as <-.
    vm_compute in Hj. injection Hj as <-. discriminate Hl.
Defined.

(** When the model answers with an object holding a [translation] entry,
    that entry is returned as it is, of whatever JSON type, after one model
    call and one INFO line. *)
Theorem translate_returns_translation_entry
        (env : Env) (query : pystr) (t : trace) r body d v :
  existsb is_cjk query = true ->
  chat_completions_create env (translation_request env query) = Normal r ->
  first_content r = Normal (Some body) ->
  json_loads env body = Normal (PDict d) ->
  lookup (py "translation") d = Some v ->
  translate_to_english env query t
  = (Normal v,
     t ++ [ EvChat (translation_request env query);
            EvLog INFO [Lit (py "Translated '"); FmtVal (PStr query);
                        Lit (py "' to '"); FmtVal v; Lit (py "'")] ]).
Proof.
  intros Hc Hr Hf Hj Hl.
  unfold translate_to_english, try_except at 1. rewrite Hc. simpl negb. cbv iota.
  unfold chat, try_except, bind, emit, lift, ret. rewrite Hr, Hf. simpl.
  rewrite Hj. simpl. rewrite Hl. rewrite <- app_assoc. reflexivity.
Qed.

Lemma translate_returns_translation_entry_witness :
  let env := mock_env (reply_with (Json.text "{'translation': null}")) unreachable unreachable in
  translate_to_english env cjk_query []
  = (Normal PNone,
     [ EvChat (translation_request env cjk_query);
       EvLog INFO [Lit (py "Translated '"); FmtVal (PStr cjk_query);
                   Lit (py "' to '"); FmtVal PNone; Lit (py "'")] ]).
Proof.
  intros env.
  apply (translate_returns_translation_entry env cjk_query []
           {| choices := [Some (Json.text "{'translation': null}")] |}
           (Json.text "{'translation': null}")
           [(py "translation", PNone)] PNone).
  - reflexivity.
  - reflexivity.
  - reflexivity.
  - vm_compute. reflexivity.
  - reflexivity.
Defined.

(** ** search_engine.py, further *)

Lemma firecrawl_item_silent item : silent (Firecrawl.format_item item).
Proof.
  unfold Firecrawl.format_item. destruct (isinstance_dict item); [apply silent_ret|].
  apply silent_bind; [|intros ?; apply silent_ret].
  destruct (truthy (py_getattr item (py "title") (PStr []))); [apply silent_ret | apply silent_lift].
Qed.

Lemma firecrawl_search_trace env query timeout limit t :
  exists tail,
    snd (Firecrawl.search env query timeout limit t)
    = t ++ EvFirecrawl (Firecrawl.request query timeout limit) :: tail
    /\ logs_only tail.
Proof.
  unfold Firecrawl.search. apply guarded_call_trace_bound.
  - intros response.
    destruct (isinstance_dict response && py_in_dict (py "data") response);
      [apply appends_logs_silent, silent_ret|].
    destruct (isinstance_dict response && py_in_dict (py "success") response).
    { apply appends_logs_silent.
      apply silent_bind; [apply silent_lift | intros ?; apply silent_ret]. }
    destruct (isinstance_list response).
    { apply appends_logs_silent.
      apply silent_bind; [apply silent_lift | intros ?].
      apply silent_bind; [apply silent_for_each, firecrawl_item_silent | intros ?].
      apply silent_ret. }
    apply appends_logs_log, appends_logs_silent, silent_ret.
  - intros b e. do 2 apply appends_logs_log. apply appends_logs_silent, silent_ret.
Qed.

Lemma tavily_search_trace env query timeout limit t :
  exists tail,
    snd (Tavily.search env query timeout limit t)
    = t ++ EvTavily (Tavily.request query timeout limit) :: tail
    /\ logs_only tail.
Proof.
  unfold Tavily.search. apply guarded_call_trace.
  - intros response.
    apply appends_logs_bind; [apply appends_logs_silent, silent_lift | intros results].
    destruct (truthy results).
    + apply appends_logs_silent.
      apply silent_bind; [apply silent_lift | intros ?].
      apply silent_bind; [apply silent_for_each, tavily_item_silent | intros ?].
      apply silent_bind; [apply silent_lift | intros ?]. apply silent_ret.
    + apply appends_logs_log, appends_logs_silent, silent_ret.
  - intros e. apply appends_logs_log, appends_logs_silent, silent_ret.
Qed.

(** Each [search] issues exactly one provider request, the one of its own
    backend, and no model call: a failure is never retried and never falls
    back to the other backend. *)
Theorem search_single_provider_call
        (env : Env) (engine_type : SearchEngineType)
        (query : pyval) (timeout limit : Z) (t : trace) :
  let t' := snd (SearchEngine env engine_type query timeout limit t) in
  firecrawl_requests t'
  = firecrawl_requests t
    ++ match engine_type with
       | FIRECRAWL => [Firecrawl.request query timeout limit]
       | TAVILY => []
       end
  /\ tavily_requests t'
     = tavily_requests t
       ++ match engine_type with
          | FIRECRAWL => []
          | TAVILY => [Tavily.request query timeout limit]
          end
  /\ search_calls t' = search_calls t + 1
  /\ model_requests t' = model_requests t.
Proof.
  intros t'. subst t'. destruct engine_type; simpl SearchEngine.
  - destruct (firecrawl_search_trace env query timeout limit t) as (tail & -> & Hl).
    destruct (logs_only_no_requests tail Hl) as (Hm & Ht & Hf & Hs).
    change (EvFirecrawl (Firecrawl.request query timeout limit) :: tail)
      with ([EvFirecrawl (Firecrawl.request query timeout limit)] ++ tail).
    rewrite !firecrawl_requests_app, !tavily_requests_app, !search_calls_app,
      !model_requests_app, Hm, Ht, Hf, Hs. simpl.
    rewrite !app_nil_r. repeat split.
  - destruct (tavily_search_trace env query timeout limit t) as (tail & -> & Hl).
    destruct (logs_only_no_requests tail Hl) as (Hm & Ht & Hf & Hs).
    change (EvTavily (Tavily.request query timeout limit) :: tail)
      with ([EvTavily (Tavily.request query timeout limit)] ++ tail).
    rewrite !firecrawl_requests_app, !tavily_requests_app, !search_calls_app,
      !model_requests_app, Hm, Ht, Hf, Hs. simpl.
    rewrite !app_nil_r. repeat split.
Qed.

Lemma in_dict_lookup key v :
  isinstance_dict v && py_in_dict key v = true ->
  exists d x, v = PDict d /\ lookup key d = Some x.
Proof.
  destruct v as [| | | | |d|]; simpl; try discriminate.
  destruct (lookup key d) as [x|] eqn:E; [|discriminate].
  intros _. exists d, x. split; [reflexivity | exact E].
Qed.

Lemma firecrawl_search_has_data env query timeout limit t :
  exists d v,
    fst (Firecrawl.search env query timeout limit t) = Normal (PDict d)
    /\ lookup (py "data") d = Some v.
Proof.
  assert (He : exists d v, Normal empty_response = Normal (PDict d)
                           /\ lookup (py "data") d = Some v).
  { eexists _, _. split; reflexivity. }
  unfold Firecrawl.search, try_except_bound. unfold bind at 1, emit at 1, lift at 1.
  destruct (firecrawl_app_search env _) as [response|e]; simpl catches; cbv iota;
    [|exact He].
  match goal with
  | |- context [match ?rest with _ => _ end] => destruct rest as [[b|e] t1] eqn:Er
  end; simpl; [|exact He].
  destruct (isinstance_dict response && py_in_dict (py "data") response) eqn:E1.
  { destruct (in_dict_lookup _ _ E1) as (d & x & -> & Hl).
    injection Er as <- _. eauto. }
  destruct (isinstance_dict response && py_in_dict (py "success") response) eqn:E2.
  { unfold bind, lift, ret in Er.
    destruct (py_get response (py "data") (PList [])); [|discriminate].
    injection Er as <- _. eexists _, _. split; reflexivity. }
  destruct (isinstance_list response).
  { unfold bind at 1, lift at 1 in Er.
    destruct (py_iter response); [|discriminate].
    unfold bind at 1 in Er.
    destruct (for_each _ _ _) as [[fd|] ?]; [|discriminate].
    injection Er as <- _. eexists _, _. split; reflexivity. }
  unfold bind, emit, ret in Er. injection Er as <- _. exact He.
Qed.

(** Whatever the provider answers or raises, both backends return a dict
    with a [data] entry, so that [search_result["data"]] cannot fail. *)
Theorem search_result_has_data
        (env : Env) (engine_type : SearchEngineType)
        (query : pyval) (timeout limit : Z) (t : trace) :
  exists d v,
    fst (SearchEngine env engine_type query timeout limit t) = Normal (PDict d)
    /\ lookup (py "data") d = Some v
    /\ py_getitem (PDict d) (py "data") = Normal v.
Proof.
  destruct engine_type; simpl SearchEngine.
  - destruct (firecrawl_search_has_data env query timeout limit t) as (d & v & H1 & H2).
    exists d, v. split; [exact H1|]. split; [exact H2|]. simpl. rewrite H2. reflexivity.
  - destruct (tavily_search_shape env query timeout limit t)
      as (d & items & mds & t' & H1 & H2 & _).
    exists d, (PList items). rewrite H1. split; [reflexivity|]. split; [exact H2|].
    simpl. rewrite H2. reflexivity.
Qed.

(** A Firecrawl response that is a dict with a [data] entry is returned
    untouched, whatever sits under [data] and beside it, with no log line. *)
Theorem firecrawl_passes_data_through
        (env : Env) (query : pyval) (timeout limit : Z) (t : trace) d v :
  firecrawl_app_search env (Firecrawl.request query timeout limit) = Normal (PDict d) ->
  lookup (py "data") d = Some v ->
  Firecrawl.search env query timeout limit t
  = (Normal (PDict d), t ++ [EvFirecrawl (Firecrawl.request query timeout limit)]).
Proof.
  intros Hr Hl. unfold Firecrawl.search, try_except_bound, bind, emit, lift.
  rewrite Hr. simpl. rewrite Hl. reflexivity.
Qed.

Lemma firecrawl_passes_data_through_witness :
  let env := mock_env unreachable
               (fun _ => Json.decode (Json.text "{'success': false, 'data': 7}"))
               unreachable in
  Firecrawl.search env (PStr (py "q")) 15000 5 []
  = (Normal (PDict [(py "success", PBool false); (py "data", PInt 7)]),
     [EvFirecrawl (Firecrawl.request (PStr (py "q")) 15000 5)]).
Proof.
  intros env.
  apply (firecrawl_passes_data_through env (PStr (py "q")) 15000 5 []
           [(py "success", PBool false); (py "data", PInt 7)] (PInt 7)).
  - vm_compute. reflexivity.
  - reflexivity.
Defined.

Lemma for_each_dicts items : forall t,
  Forall (fun item => isinstance_dict item = true) items ->
  for_each Firecrawl.format_item items t = (Normal items, t).
Proof.
  induction items as [|x xs IH]; intros t H; [reflexivity|].
  inversion H as [|? ? Hx Hxs]; subst.
  cbn [for_each]. unfold bind at 1. unfold Firecrawl.format_item at 1. rewrite Hx.
  unfold ret at 1. unfold bind at 1. rewrite (IH t Hxs). reflexivity.
Qed.

(** A Firecrawl response that is a list of dicts comes back as
    [{"data": items}]: the same items, in the same order, none dropped. *)
Theorem firecrawl_list_of_dicts
        (env : Env) (query : pyval) (timeout limit : Z) (t : trace) items :
  firecrawl_app_search env (Firecrawl.request query timeout limit) = Normal (PList items) ->
  Forall (fun item => isinstance_dict item = true) items ->
  Firecrawl.search env query timeout limit t
  = (Normal (PDict [(py "data", PList items)]),
     t ++ [EvFirecrawl (Firecrawl.request query timeout limit)]).
Proof.
  intros Hr Hd. unfold Firecrawl.search, try_except_bound.
  unfold bind at 1, emit at 1, lift at 1. rewrite Hr. simpl.
  unfold bind at 1, lift at 1. unfold bind at 1.
  rewrite (for_each_dicts items _ Hd). reflexivity.
Qed.

Lemma firecrawl_list_of_dicts_witness :
  let env := mock_env unreachable
               (fun _ => Json.decode (Json.text "[{'url': 'a'}, {'url': 'b'}]"))
               unreachable in
  Firecrawl.search env (PStr (py "q")) 15000 5 []
  = (Normal (PDict [(py "data", PList [PDict [(py "url", PStr (py "a"))];
                                       PDict [(py "url", PStr (py "b"))]])]),
     [EvFirecrawl (Firecrawl.request (PStr (py "q")) 15000 5)]).
Proof.
  intros env.
  apply (firecrawl_list_of_dicts env (PStr (py "q")) 15000 5 []).
  - vm_compute. reflexivity.
  - repeat constructor.
Defined.

(** A Firecrawl response without a [data] entry that is not a list yields
    [{"data": []}]: silently when it is a dict with a [success] entry, with
    an ERROR line naming its type otherwise. *)
Theorem firecrawl_response_without_data
        (env : Env) (query : pyval) (timeout limit : Z) (t : trace) response :
  firecrawl_app_search env (Firecrawl.request query timeout limit) = Normal response ->
  py_in_dict (py "data") response = false ->
  isinstance_list response = false ->
  Firecrawl.search env query timeout limit t
  = (Normal (PDict [(py "data", PList [])]),
     t ++ EvFirecrawl (Firecrawl.request query timeout limit)
       :: (if py_in_dict (py "success") response then []
           else [EvLog ERROR [Lit (py "Unexpected response format from Firecrawl: ");
                              FmtTypeOf response]])).
Proof.
  intros Hr Hd Hl. unfold Firecrawl.search, try_except_bound.
  unfold bind at 1, emit at 1, lift at 1. rewrite Hr. rewrite Hd, andb_false_r.
  destruct (py_in_dict (py "success") response) eqn:Es.
  - assert (Hi : isinstance_dict response = true).
    { destruct response; simpl in Es; try discriminate; reflexivity. }
    rewrite Hi. simpl andb. cbv iota.
    destruct response as [| | | | |d|]; try discriminate Hi.
    unfold bind, lift, ret, py_get. simpl in Hd.
    destruct (lookup (py "data") d); [discriminate|]. reflexivity.
  - rewrite andb_false_r, Hl. unfold bind, emit, ret. simpl.
    rewrite <- app_assoc. reflexivity.
Qed.

Lemma firecrawl_response_without_data_witness :
  let env := mock_env unreachable
               (fun _ => Json.decode (Json.text "{'error': 'rate limited'}"))
               unreachable in
  Firecrawl.search env (PStr (py "q")) 15000 5 []
  = (Normal (PDict [(py "data", PList [])]),
     [ EvFirecrawl (Firecrawl.request (PStr (py "q")) 15000 5);
       EvLog ERROR [Lit (py "Unexpected response format from Firecrawl: ");
                    FmtTypeOf (PDict [(py "error", PStr (py "rate limited"))])] ]).
Proof.
  intros env.
  apply (firecrawl_response_without_data env (PStr (py "q")) 15000 5 []
           (PDict [(py "error", PStr (py "rate limited"))])).
  - vm_compute. reflexivity.
  - reflexivity.
  - reflexivity.
Defined.

Lemma tavily_format_item_some item hit t :
  tavily_hit item = Some hit -> Tavily.format_item item t = (Normal hit, t).
Proof.
  destruct item as [| | | | |d|]; try discriminate. unfold tavily_hit.
  unfold Tavily.format_item, bind, lift, ret, py_get. fold (dict_get d).
  change (match lookup (py "title") d with Some x => x | None => PStr [] end)
    with (dict_get d (py "title") (PStr [])).
  change (match lookup (py "url") d with Some x => x | None => PStr [] end)
    with (dict_get d (py "url") (PStr [])).
  change (match lookup (py "published_date") d with Some x => x | None => PStr [] end)
    with (dict_get d (py "published_date") (PStr [])).
  change (match lookup (py "content") d with Some x => x | None => PStr [] end)
    with (dict_get d (py "content") (PStr [])).
  destruct (dict_get d (py "published_date") (PStr [])) as [| | |date| | |]; try discriminate.
  destruct (dict_get d (py "content") (PStr [])) as [| | |body| | |]; try discriminate.
  intros H. injection H as <-. simpl. rewrite <- app_assoc. reflexivity.
Qed.

Lemma tavily_format_item_none item t :
  tavily_hit item = None -> exists e, Tavily.format_item item t = (Raise e, t).
Proof.
  destruct item as [| | | | |d|]; try (intros _; eexists; reflexivity).
  unfold tavily_hit.
  unfold Tavily.format_item, bind, lift, ret, py_get.
  change (match lookup (py "published_date") d with Some x => x | None => PStr [] end)
    with (dict_get d (py "published_date") (PStr [])).
  change (match lookup (py "content") d with Some x => x | None => PStr [] end)
    with (dict_get d (py "content") (PStr [])).
  destruct (dict_get d (py "published_date") (PStr [])) as [| | |date| | |];
    try (intros _; eexists; reflexivity).
  destruct (dict_get d (py "content") (PStr [])) as [| | |body| | |];
    try (intros _; eexists; reflexivity).
  discriminate.
Qed.

Lemma for_each_tavily_some items : forall hits t,
  map tavily_hit items = map Some hits ->
  for_each Tavily.format_item items t = (Normal hits, t).
Proof.
  induction items as [|x xs IH]; intros [|h hs] t H; try discriminate H; [reflexivity|].
  simpl in H. injection H as Hx Hxs.
  cbn [for_each]. unfold bind at 1. rewrite (tavily_format_item_some x h t Hx).
  unfold bind at 1. rewrite (IH hs t Hxs). reflexivity.
Qed.

Lemma for_each_tavily_none items : forall x t,
  In x items -> tavily_hit x = None ->
  exists e, for_each Tavily.format_item items t = (Raise e, t).
Proof.
  induction items as [|y ys IH]; intros x t Hin Hx; [contradiction|].
  cbn [for_each]. unfold bind at 1.
  destruct (tavily_hit y) as [h|] eqn:Ey.
  - rewrite (tavily_format_item_some y h t Ey).
    destruct Hin as [->|Hin]; [congruence|].
    destruct (IH x t Hin Hx) as [e He]. unfold bind at 1. rewrite He. eauto.
  - destruct (tavily_format_item_none y t Ey) as [e He]. rewrite He. eauto.
Qed.

(** When every provider result is a dict whose [published_date] and
    [content] are texts or absent, [Tavily.search] returns one hit per
    result, in the provider's order, its markdown being the date, a line
    feed and the content, together with the provider's answer. *)
Theorem tavily_search_hits
        (env : Env) (query : pyval) (timeout limit : Z) (t : trace)
        resp item items hits :
  tavily_client_search env (Tavily.request query timeout limit) = Normal (PDict resp) ->
  lookup (py "results") resp = Some (PList (item :: items)) ->
  map tavily_hit (item :: items) = map Some hits ->
  Tavily.search env query timeout limit t
  = (Normal (PDict [(py "data", PList hits);
                    (py "answer", dict_get resp (py "answer") (PStr []))]),
     t ++ [EvTavily (Tavily.request query timeout limit)])
  /\ length hits = S (length items).
Proof.
  intros Hr Hl Hm. split.
  - unfold Tavily.search, try_except.
    unfold bind at 1 2, emit at 1, lift at 1. rewrite Hr.
    unfold bind at 1, lift at 1, py_get. rewrite Hl. cbn [truthy].
    unfold bind at 1, lift at 1. cbn [py_iter].
    unfold bind at 1. rewrite (for_each_tavily_some _ hits _ Hm).
    reflexivity.
  - apply (f_equal (@length _)) in Hm. rewrite !length_map in Hm. simpl in Hm. lia.
Qed.

Lemma tavily_search_hits_witness :
  let env := mock_env unreachable unreachable
               (fun _ => Json.decode
                  (Json.text "{'results': [{'title': 'T', 'published_date': '2025', 'content': 'c'}, {'url': 'u'}], 'answer': 'a'}")) in
  Tavily.search env (PStr (py "q")) 15000 5 []
  = (Normal (PDict [(py "data",
                     PList [PDict [(py "title", PStr (py "T")); (py "url", PStr []);
                                   (py "markdown", PStr (py "2025\nc"))];
                            PDict [(py "title", PStr []); (py "url", PStr (py "u"));
                                   (py "markdown", PStr (py "\n"))]]);
                    (py "answer", PStr (py "a"))]),
     [EvTavily (Tavily.request (PStr (py "q")) 15000 5)]).
Proof.
  intros env.
  apply (tavily_search_hits env (PStr (py "q")) 15000 5 []
           [(py "results",
             PList [PDict [(py "title", PStr (py "T"));
                           (py "published_date", PStr (py "2025"));
                           (py "content", PStr (py "c"))];
                    PDict [(py "url", PStr (py "u"))]]);
            (py "answer", PStr (py "a"))]
           (PDict [(py "title", PStr (py "T"));
                   (py "published_date", PStr (py "2025"));
                   (py "content", PStr (py "c"))])
           [PDict [(py "url", PStr (py "u"))]]
           [PDict [(py "title", PStr (py "T")); (py "url", PStr []);
                   (py "markdown", PStr (py "2025\nc"))];
            PDict [(py "title", PStr []); (py "url", PStr (py "u"));
                   (py "markdown", PStr (py "\n"))]]).
  - vm_compute. reflexivity.
  - reflexivity.
  - reflexivity.
Defined.

(** When the provider returns no results (an absent, empty or otherwise
    false [results]), [Tavily.search] returns [{"data": []}] and logs an
    ERROR line: the answer the provider may have synthesised is dropped. *)
Theorem tavily_search_no_results
        (env : Env) (query : pyval) (timeout limit : Z) (t : trace) resp :
  tavily_client_search env (Tavily.request query timeout limit) = Normal (PDict resp) ->
  truthy (dict_get resp (py "results") (PList [])) = false ->
  Tavily.search env query timeout limit t
  = (Normal (PDict [(py "data", PList [])]),
     t ++ [ EvTavily (Tavily.request query timeout limit);
            EvLog ERROR [Lit (py "Unexpected response format from Tavily: ");
                         FmtVal (PDict resp)] ]).
Proof.
  intros Hr Hf. unfold Tavily.search, try_except.
  unfold bind at 1 2, emit at 1, lift at 1. rewrite Hr.
  unfold bind at 1, lift at 1, py_get. fold (dict_get resp (py "results") (PList [])).
  rewrite Hf. unfold bind, emit, ret. rewrite <- app_assoc. reflexivity.
Qed.

Lemma tavily_search_no_results_witness :
  let env := mock_env unreachable unreachable
               (fun _ => Json.decode (Json.text "{'results': [], 'answer': 'Forty-two.'}")) in
  Tavily.search env (PStr (py "q")) 15000 5 []
  = (Normal (PDict [(py "data", PList [])]),
     [ EvTavily (Tavily.request (PStr (py "q")) 15000 5);
       EvLog ERROR [Lit (py "Unexpected response format from Tavily: ");
                    FmtVal (PDict [(py "results", PList []);
                                   (py "answer", PStr (py "Forty-two."))])] ]).
Proof.
  intros env.
  apply (tavily_search_no_results env (PStr (py "q")) 15000 5 []
           [(py "results", PList []); (py "answer", PStr (py "Forty-two."))]).
  - vm_compute. reflexivity.
  - reflexivity.
Defined.

(** One provider result that cannot be formatted (not a dict, or with a
    [published_date] or [content] that is not a text) costs all the hits:
    [Tavily.search] returns [{"data": []}], however many results were
    well formed. *)
Theorem tavily_search_all_or_nothing
        (env : Env) (query : pyval) (timeout limit : Z) (t : trace)
        resp items bad :
  tavily_client_search env (Tavily.request query timeout limit) = Normal (PDict resp) ->
  lookup (py "results") resp = Some (PList items) ->
  In bad items ->
  tavily_hit bad = None ->
  fst (Tavily.search env query timeout limit t) = Normal (PDict [(py "data", PList [])]).
Proof.
  intros Hr Hl Hin Hbad. unfold Tavily.search, try_except.
  unfold bind at 1 2, emit at 1, lift at 1. rewrite Hr.
  unfold bind at 1, lift at 1, py_get. rewrite Hl.
  destruct items as [|x xs]; [contradiction|]. cbn [truthy].
  unfold bind at 1, lift at 1. cbn [py_iter].
  unfold bind at 1.
  destruct (for_each_tavily_none (x :: xs) bad
              (t ++ [EvTavily (Tavily.request query timeout limit)]) Hin Hbad) as [e He].
  rewrite He. reflexivity.
Qed.

Lemma tavily_search_all_or_nothing_witness :
  let env := mock_env unreachable unreachable
               (fun _ => Json.decode
                  (Json.text "{'results': [{'content': 'good'}, {'content': 'fine', 'published_date': null}]}")) in
  fst (Tavily.search env (PStr (py "q")) 15000 5 []) = Normal (PDict [(py "data", PList [])]).
Proof.
  intros env.
  apply (tavily_search_all_or_nothing env (PStr (py "q")) 15000 5 []
           [(py "results",
             PList [PDict [(py "content", PStr (py "good"))];
                    PDict [(py "content", PStr (py "fine")); (py "published_date", PNone)]])]
           [PDict [(py "content", PStr (py "good"))];
            PDict [(py "content", PStr (py "fine")); (py "published_date", PNone)]]
           (PDict [(py "content", PStr (py "fine")); (py "published_date", PNone)])).
  - vm_compute. reflexivity.
  - reflexivity.
  - right. left. reflexivity.
  - reflexivity.
Defined.

Lemma tavily_item_has_text item t v t' :
  Tavily.format_item item t = (Normal v, t') -> has_text v = true.
Proof.
  destruct (tavily_hit item) as [h|] eqn:E.
  - rewrite (tavily_format_item_some item h t E). intros H. injection H as <- _.
    destruct item as [| | | | |d|]; try discriminate E. unfold tavily_hit in E.
    destruct (dict_get d (py "published_date") (PStr [])) as [| | |date| | |]; try discriminate E.
    destruct (dict_get d (py "content") (PStr [])) as [| | |body| | |]; try discriminate E.
    injection E as <-. unfold has_text, hit_markdown. simpl lookup.
    destruct date; reflexivity.
  - destruct (tavily_format_item_none item t E) as [e He]. rewrite He. discriminate.
Qed.

Lemma for_each_tavily_has_text items : forall t ys t',
  for_each Tavily.format_item items t = (Normal ys, t') ->
  forallb has_text ys = true.
Proof.
  induction items as [|x xs IH]; intros t ys t' H; simpl in H.
  - injection H as <- _. reflexivity.
  - unfold bind in H.
    destruct (Tavily.format_item x t) as [[y|e] t1] eqn:Ex; [|discriminate].
    destruct (for_each Tavily.format_item xs t1) as [[ys'|e] t2] eqn:Exs; [|discriminate].
    injection H as <- _. simpl.
    rewrite (tavily_item_has_text x t y t1 Ex), (IH t1 ys' t2 Exs). reflexivity.
Qed.

Lemma tavily_search_has_text env query timeout limit t :
  exists d items,
    fst (Tavily.search env query timeout limit t) = Normal (PDict d)
    /\ lookup (py "data") d = Some (PList items)
    /\ forallb has_text items = true
    /\ filter has_text items = items.
Proof.
  assert (He : exists d items,
             Normal empty_response = Normal (PDict d)
             /\ lookup (py "data") d = Some (PList items)
             /\ forallb has_text items = true /\ filter has_text items = items).
  { exists [(py "data", PList [])], []. repeat split. }
  unfold Tavily.search, try_except.
  match goal with
  | |- context [match ?body t with _ => _ end] => destruct (body t) as [[v|e] t1] eqn:E
  end; [|exact He].
  unfold bind at 1 2, emit, lift at 1 in E.
  destruct (tavily_client_search env _) as [response|]; [|discriminate].
  unfold bind at 1, lift at 1 in E.
  destruct (py_get response (py "results") (PList [])) as [results|]; [|discriminate].
  destruct (truthy results).
  - unfold bind at 1, lift at 1 in E.
    destruct (py_iter results) as [its|]; [|discriminate].
    unfold bind at 1 in E.
    destruct (for_each Tavily.format_item its _) as [[fd|] t2] eqn:Ef; [|discriminate].
    unfold bind, lift, ret in E.
    destruct (py_get response (py "answer") (PStr [])) as [a|]; [|discriminate].
    injection E as <- <-.
    pose proof (for_each_tavily_has_text _ _ _ _ Ef) as Hall.
    eexists _, fd. simpl fst. split; [reflexivity|]. split; [reflexivity|].
    split; [exact Hall|].
    clear Ef. induction fd as [|x xs IH]; [reflexivity|].
    simpl in Hall |- *. apply andb_prop in Hall. destruct Hall as [Hx Hxs].
    rewrite Hx, (IH Hxs). reflexivity.
  - unfold bind, emit, ret in E. injection E as <- <-. exact He.
Qed.

(** Every hit [Tavily.search] returns has a non-empty markdown, since the
    line feed between date and content is always there: the context
    builder's test on empty markdown never drops a Tavily hit. *)
Theorem tavily_hits_have_text
        (env : Env) (query : pyval) (timeout limit : Z) (t : trace) :
  exists d items,
    fst (Tavily.search env query timeout limit t) = Normal (PDict d)
    /\ lookup (py "data") d = Some (PList items)
    /\ forallb has_text items = true
    /\ filter has_text items = items.
Proof. apply tavily_search_has_text. Qed.

(** ** feedback.py, further *)

Lemma filter_hits_markdown items : forall mds,
  map hit_markdown items = map Some mds ->
  map hit_markdown (filter has_text items) = map Some (filter nonempty mds).
Proof.
  induction items as [|x xs IH]; intros [|md mds] H; try discriminate H; [reflexivity|].
  simpl in H. injection H as Hx Hxs. simpl. unfold has_text at 1. rewrite Hx.
  destruct md as [|c md]; simpl.
  - apply IH, Hxs.
  - rewrite Hx. f_equal. apply IH, Hxs.
Qed.

Lemma filter_nonempty_idem (mds : list pystr) :
  filter nonempty (filter nonempty mds) = filter nonempty mds.
Proof.
  induction mds as [|md mds IH]; [reflexivity|]. simpl.
  destruct (nonempty md) eqn:E; simpl; [rewrite E, IH|]; auto.
Qed.

(** Hits whose markdown is the empty text leave no trace in the context: the
    context of a search result is the context of the same result without
    them. *)
Theorem search_context_skips_empty_hits
        (env : Env) (d : list (pystr * pyval)) (items : list pyval)
        (mds : list pystr) (t : trace) :
  lookup (py "data") d = Some (PList items) ->
  map hit_markdown items = map Some mds ->
  search_context env (PDict d) t
  = search_context env
      (PDict [(py "data", PList (filter has_text items)); (py "answer", answer_of d)]) t.
Proof.
  intros Hd Hm.
  rewrite (search_context_hits env d items mds t Hd Hm).
  rewrite (search_context_hits env
             [(py "data", PList (filter has_text items)); (py "answer", answer_of d)]
             (filter has_text items) (filter nonempty mds) t
             eq_refl (filter_hits_markdown items mds Hm)).
  unfold trimmed_contents. rewrite filter_nonempty_idem. reflexivity.
Qed.

Lemma search_context_skips_empty_hits_witness :
  let env := mock_env unreachable unreachable unreachable in
  let hit (md : pystr) := PDict [(py "url", PStr (py "u")); (py "markdown", PStr md)] in
  search_context env (PDict [(py "data", PList [hit []; hit (py "text"); hit []])]) []
  = search_context env (PDict [(py "data", PList [hit (py "text")]); (py "answer", PStr [])]) [].
Proof.
  intros env hit.
  apply (search_context_skips_empty_hits env
           [(py "data", PList [hit []; hit (py "text"); hit []])]
           [hit []; hit (py "text"); hit []]
           [[]; py "text"; []] []); reflexivity.
Defined.

Lemma tavily_search_on_exception env query timeout limit t e :
  tavily_client_search env (Tavily.request query timeout limit) = Raise e ->
  Tavily.search env query timeout limit t
  = (Normal empty_response,
     t ++ [ EvTavily (Tavily.request query timeout limit);
            EvLog ERROR [Lit (py "Error searching with Tavily: "); FmtExn e] ]).
Proof.
  intros H. unfold Tavily.search, try_except, bind, emit, lift, ret. rewrite H.
  simpl. rewrite <- app_assoc. reflexivity.
Qed.

Lemma parse_questions_logs env response : appends_logs (parse_questions env response).
Proof.
  unfold parse_questions. apply appends_logs_try_except.
  - apply appends_logs_silent.
    repeat (apply silent_bind; [apply silent_lift | intros ?]). apply silent_lift.
  - intros e. apply appends_logs_print.
    apply appends_logs_bind; [apply appends_logs_silent, silent_lift | intros c].
    apply appends_logs_print, appends_logs_silent, silent_ret.
Qed.

(** After the enhancement, [generate_feedback] records its model request
    and then log lines only. *)
Lemma generate_feedback_trace env query use_search_enhancement t query' context t1 :
  enhance env query use_search_enhancement t = (Normal (query', context), t1) ->
  exists tail,
    snd (generate_feedback env query use_search_enhancement t)
    = t1 ++ EvChat (feedback_request env query' context) :: tail
    /\ logs_only tail.
Proof.
  intros He. rewrite (generate_feedback_after_enhance _ _ _ _ _ _ _ He).
  unfold chat, bind at 1 2, emit, lift.
  destruct (chat_completions_create env (feedback_request env query' context)) as [r|e].
  - destruct (parse_questions_logs env r
                (t1 ++ [EvChat (feedback_request env query' context)]))
      as (tail & Ht & Hl).
    exists tail. split; [|exact Hl].
    etransitivity; [exact Ht|]. rewrite <- app_assoc. reflexivity.
  - exists []. split; reflexivity.
Qed.

(** When the search provider fails, search enhancement still adds its
    introduction to the prompt, with nothing after it: the last model
    request of [generate_feedback] has the user message "Given this
    research topic: ", the translated query, the bare sentence "Here is
    some background information about the topic:" between its line feeds,
    and the instruction. *)
Theorem enhance_context_when_search_fails
        (env : Env) (query : pystr) (t t1 : trace) (query' : pyval) (e : exn) :
  translate_to_english env query t = (Normal query', t1) ->
  tavily_client_search env (Tavily.request query' default_timeout 5) = Raise e ->
  fst (enhance env query true t)
  = Normal (query', py "\n\nHere is some background information about the topic:\n")
  /\ exists final,
       model_requests (snd (generate_feedback env query true t))
       = model_requests t1 ++ [final]
       /\ map role (messages final) = [py "system"; py "user"]
       /\ map content (messages final)
          = [ system_prompt env;
              py "Given this research topic: " ++ py_str env query'
              ++ py "\n\nHere is some background information about the topic:\n"
              ++ py ", generate 3-5 follow-up questions to better understand the user's research needs. Return the response as a JSON object with a 'questions' array field." ].
Proof.
  intros Ht Hs.
  assert (He : enhance env query true t
               = (Normal (query', py "\n\nHere is some background information about the topic:\n"),
                  (t1 ++ [ EvTavily (Tavily.request query' default_timeout 5);
                           EvLog ERROR [Lit (py "Error searching with Tavily: "); FmtExn e] ])
                  ++ [EvLog INFO
                        [Lit (py "Search result: ");
                         FmtVal (PStr (py "\n\nHere is some background information about the topic:\n"))]])).
  { unfold enhance. unfold bind at 1. rewrite Ht.
    unfold bind at 1. simpl SearchEngine.
    rewrite (tavily_search_on_exception env query' default_timeout 5 t1 e Hs).
    reflexivity. }
  split; [rewrite He; reflexivity|].
  destruct (generate_feedback_trace _ _ _ _ _ _ _ He) as (tail & -> & Hl).
  destruct (logs_only_no_requests tail Hl) as (Hm & _).
  exists (feedback_request env query'
            (py "\n\nHere is some background information about the topic:\n")).
  split; [|split; reflexivity].
  change (EvChat (feedback_request env query'
                    (py "\n\nHere is some background information about the topic:\n")) :: tail)
    with ([EvChat (feedback_request env query'
                     (py "\n\nHere is some background information about the topic:\n"))] ++ tail).
  rewrite !model_requests_app, Hm. simpl. rewrite !app_nil_r. reflexivity.
Qed.

Lemma enhance_context_when_search_fails_witness :
  let env := mock_env (reply_with three_questions) unreachable unreachable in
  let query := py "What is quantum computing?" in
  fst (enhance env query true [])
  = Normal (PStr query, py "\n\nHere is some background information about the topic:\n")
  /\ exists final,
       model_requests (snd (generate_feedback env query true [])) = [final]
       /\ map content (messages final)
          = [ py "You are an expert researcher.";
              py "Given this research topic: What is quantum computing?\n\nHere is some background information about the topic:\n, generate 3-5 follow-up questions to better understand the user's research needs. Return the response as a JSON object with a 'questions' array field." ].
Proof.
  intros env query.
  destruct (enhance_context_when_search_fails env query [] [] (PStr query)
              (mkExn SDKError (py "Connection error.")) eq_refl eq_refl)
    as (Hctx & final & Hreq & _ & Hmsg).
  split; [exact Hctx|]. exists final. split; [exact Hreq|].
  rewrite Hmsg. vm_compute. reflexivity.
Defined.

(** The requests of an enhanced run, in terms of the request builders. *)
Lemma generate_feedback_enhanced_trace (env : Env) (query : pystr) (t : trace) :
  exists query' context,
    fst (translate_to_english env query t) = Normal query'
    /\ fst (enhance env query true t) = Normal (query', context)
    /\ let t' := snd (generate_feedback env query true t) in
       tavily_requests t' = tavily_requests t ++ [Tavily.request query' 15000 5]
       /\ max_results (Tavily.request query' 15000 5) = 5%Z
       /\ firecrawl_requests t' = firecrawl_requests t
       /\ model_requests t'
          = model_requests t
            ++ (if existsb is_cjk query then [translation_request env query] else [])
            ++ [feedback_request env query' context].
Proof.
  destruct (enhance_with_search env query t)
    as (q' & t1 & d & items & mds & t2 & Ht & Hs & _ & _ & He).
  specialize (He _ eq_refl).
  eexists q', _. split; [rewrite Ht; reflexivity|]. split; [rewrite He; reflexivity|].
  destruct (generate_feedback_trace _ _ _ _ _ _ _ He) as (tail3 & -> & L3).
  destruct (translate_trace env query t) as (tail1 & H1 & L1).
  rewrite Ht in H1. simpl in H1.
  destruct (tavily_search_trace env q' default_timeout 5%Z t1) as (tail2 & H2 & L2).
  rewrite Hs in H2. simpl in H2. subst t2 t1.
  destruct (logs_only_no_requests _ L1) as (M1 & T1 & F1 & _).
  destruct (logs_only_no_requests _ L2) as (M2 & T2 & F2 & _).
  destruct (logs_only_no_requests _ L3) as (M3 & T3 & F3 & _).
  cbv zeta.
  repeat match goal with
         | |- context [?a :: ?l] =>
             lazymatch l with
             | [] => fail
             | _ => change (a :: l) with ([a] ++ l)
             end
         end.
  rewrite !tavily_requests_app, !firecrawl_requests_app, !model_requests_app.
  rewrite M2, T2, F2, M3, T3, F3.
  destruct (existsb is_cjk query).
  - change (EvChat (translation_request env query) :: tail1)
      with ([EvChat (translation_request env query)] ++ tail1).
    rewrite !tavily_requests_app, !firecrawl_requests_app, !model_requests_app.
    rewrite M1, T1, F1. simpl. rewrite !app_nil_r, <- !app_assoc. simpl.
    repeat split; reflexivity.
  - simpl. rewrite !app_nil_r. repeat split; reflexivity.
Qed.

(** With search enhancement on, [generate_feedback] sends the value
    returned by [translate_to_english], not the original query, both to
    Tavily and into the final prompt.  Tavily gets exactly one request, with
    that value as query, "advanced" depth, "general" topic, [days=5],
    [max_results=5], answer and raw content asked for; Firecrawl gets none.
    The model calls are the translation call, when the query needs one, and
    then the final call, whose user message is "Given this research topic: ",
    that value, the context and the instruction. *)
Theorem generate_feedback_enhanced_calls (env : Env) (query : pystr) (t : trace) :
  exists query' context,
    fst (translate_to_english env query t) = Normal query'
    /\ fst (enhance env query true t) = Normal (query', context)
    /\ let t' := snd (generate_feedback env query true t) in
       tavily_requests t'
       = tavily_requests t
         ++ [ {| tv_query := query';
                 search_depth := py "advanced";
                 topic := py "general";
                 days := 5;
                 max_results := 5;
                 include_answer := true;
                 include_raw_content := true |} ]
       /\ firecrawl_requests t' = firecrawl_requests t
       /\ exists final,
            model_requests t'
            = model_requests t
              ++ (if existsb is_cjk query then [translation_request env query] else [])
              ++ [final]
            /\ map content (messages (translation_request env query))
               = [ py "You are a professional translator. Translate the given Chinese text to English accurately and naturally.";
                   py "Translate the following query to English: " ++ query
                   ++ py "Return the response as a JSON object with a 'translation' field." ]
            /\ map content (messages final)
               = [ system_prompt env;
                   py "Given this research topic: " ++ py_str env query' ++ context
                   ++ py ", generate 3-5 follow-up questions to better understand the user's research needs. Return the response as a JSON object with a 'questions' array field." ].
Proof.
  destruct (generate_feedback_enhanced_trace env query t)
    as (q' & ctx & Ht & He & Htav & _ & Hfc & Hm).
  exists q', ctx. split; [exact Ht|]. split; [exact He|]. cbv zeta.
  split; [exact Htav|]. split; [exact Hfc|].
  exists (feedback_request env q' ctx). split; [exact Hm|]. split; reflexivity.
Qed.

Lemma generate_feedback_enhanced_calls_witness :
  let env := mock_env (scripted_model (Json.text "{'translation': 'quantum'}")
                                      three_questions)
                      unreachable
                      (fun _ => Json.decode
                         (Json.text "{'results': [{'title': 'T', 'url': 'u', 'content': 'c'}], 'answer': 'a'}")) in
  let t' := trace_of (generate_feedback env cjk_query true) in
  tavily_requests t'
  = [ {| tv_query := PStr (py "quantum");
         search_depth := py "advanced";
         topic := py "general";
         days := 5;
         max_results := 5;
         include_answer := true;
         include_raw_content := true |} ]
  /\ firecrawl_requests t' = []
  /\ exists final,
       model_requests t' = [translation_request env cjk_query; final]
       /\ map content (messages final)
          = [ py "You are an expert researcher.";
              py "Given this research topic: quantum\n\nHere is some background information about the topic:\n<content>\n\nc\n</content>a, generate 3-5 follow-up questions to better understand the user's research needs. Return the response as a JSON object with a 'questions' array field." ].
Proof.
  intros env t'.
  destruct (generate_feedback_enhanced_calls env cjk_query [])
    as (q' & ctx & Ht & He & Htav & Hfc & final & Hm & _ & Hmsg).
  vm_compute in Ht. injection Ht as <-.
  vm_compute in He. injection He as <-.
  split; [exact Htav|]. split; [exact Hfc|].
  exists final. split; [exact Hm|].
  rewrite Hmsg. vm_compute. reflexivity.
Defined.

(** The outcome of [generate_feedback] in every case of the final model
    call: its exception is passed on; so are the failures of reading the
    first choice; a body that does not decode gives the empty list when the
    error is [JSONDecodeError]; a decoded object gives its [questions] entry
    or the empty list; any other decoded value fails on [get]. *)
Theorem generate_feedback_outcome
        (env : Env) (query : pystr) (use_search_enhancement : bool) (t : trace) :
  exists query' context t1,
    enhance env query use_search_enhancement t = (Normal (query', context), t1)
    /\ let final := fst (generate_feedback env query use_search_enhancement t) in
       match chat_completions_create env (feedback_request env query' context) with
       | Raise e => final = Raise e
       | Normal r =>
           match choices r with
           | [] => exists e, final = Raise e /\ exn_cls e = IndexError
           | None :: _ => exists e, final = Raise e /\ exn_cls e = TypeError
           | Some body :: _ =>
               match json_loads env body with
               | Raise e =>
                   final = if exn_class_eqb (exn_cls e) JSONDecodeError
                           then Normal (PList []) else Raise e
               | Normal (PDict d) =>
                   final = Normal (dict_get d (py "questions") (PList []))
               | Normal _ => exists e, final = Raise e /\ exn_cls e = AttributeError
               end
           end
       end.
Proof.
  destruct (enhance_total env query use_search_enhancement t) as (q' & ctx & t1 & He).
  exists q', ctx, t1. split; [exact He|]. cbv zeta.
  rewrite (generate_feedback_after_enhance _ _ _ _ _ _ _ He).
  unfold chat, bind at 1 2, emit, lift.
  destruct (chat_completions_create env (feedback_request env q' ctx)) as [r|e];
    [|reflexivity].
  unfold parse_questions, try_except, bind, lift, emit, ret, first_content, loads.
  destruct (choices r) as [|[body|] rest]; simpl.
  - eexists. split; reflexivity.
  - destruct (json_loads env body) as [v|e]; simpl.
    + destruct v; simpl; try reflexivity; eexists; split; reflexivity.
    + destruct (exn_class_eqb (exn_cls e) JSONDecodeError); reflexivity.
  - eexists. split; reflexivity.
Qed.

Lemma all_text_no_filter items : forall mds,
  map hit_markdown items = map Some mds ->
  forallb has_text items = true ->
  filter nonempty mds = mds.
Proof.
  induction items as [|x xs IH]; intros [|md mds] H Ha; try discriminate H; [reflexivity|].
  simpl in H. injection H as Hx Hxs. simpl in Ha. apply andb_prop in Ha.
  destruct Ha as [Ha Has]. unfold has_text in Ha. rewrite Hx in Ha.
  destruct md as [|c md]; [discriminate Ha|]. simpl. f_equal. apply (IH mds Hxs Has).
Qed.

(** With search enhancement on, every hit that Tavily returned gets its own
    block in the context, in order and none skipped: the context is the
    introduction, then for each hit "<content>\n", the hit's markdown
    trimmed to 15000, "\n</content>", then the answer; and this context is
    what the user message of the final model request carries. *)
Theorem enhance_keeps_every_hit (env : Env) (query : pystr) (t : trace) :
  exists query' t1 d items mds context,
    translate_to_english env query t = (Normal query', t1)
    /\ fst (Tavily.search env query' 15000 5 t1) = Normal (PDict d)
    /\ lookup (py "data") d = Some (PList items)
    /\ map hit_markdown items = map Some mds
    /\ length mds = length items
    /\ context
       = py "\n\nHere is some background information about the topic:\n"
         ++ concat (map (fun md => py "<content>\n" ++ trim_prompt env md 15000
                                   ++ py "\n</content>") mds)
         ++ py_str env (answer_of d)
    /\ fst (enhance env query true t) = Normal (query', context)
    /\ exists earlier final,
         model_requests (snd (generate_feedback env query true t)) = earlier ++ [final]
         /\ map content (messages final)
            = [ system_prompt env;
                py "Given this research topic: " ++ py_str env query' ++ context
                ++ py ", generate 3-5 follow-up questions to better understand the user's research needs. Return the response as a JSON object with a 'questions' array field." ].
Proof.
  destruct (enhance_with_search env query t)
    as (q' & t1 & d & items & mds & t2 & Ht & Hs & Hd & Hm & He).
  exists q', t1, d, items, mds. eexists.
  split; [exact Ht|]. split; [exact (f_equal fst Hs)|].
  split; [exact Hd|]. split; [exact Hm|].
  split.
  { apply (f_equal (@length _)) in Hm. rewrite !length_map in Hm. symmetry. exact Hm. }
  split; [reflexivity|].
  assert (Hf : filter nonempty mds = mds).
  { destruct (tavily_search_has_text env q' default_timeout 5%Z t1)
      as (d' & items' & Hs' & Hd' & Hall & _).
    rewrite Hs in Hs'. simpl in Hs'. injection Hs' as <-.
    rewrite Hd in Hd'. injection Hd' as <-.
    apply (all_text_no_filter items mds Hm Hall). }
  assert (Hctx : py "\n\nHere is some background information about the topic:\n"
                 ++ concat (map content_block (trimmed_contents env mds))
                 ++ py_str env (answer_of d)
                 = py "\n\nHere is some background information about the topic:\n"
                   ++ concat (map (fun md => py "<content>\n" ++ trim_prompt env md 15000
                                             ++ py "\n</content>") mds)
                   ++ py_str env (answer_of d)).
  { unfold trimmed_contents. rewrite Hf, map_map. reflexivity. }
  specialize (He _ eq_refl). rewrite Hctx in He.
  split; [rewrite He; reflexivity|].
  destruct (generate_feedback_trace _ _ _ _ _ _ _ He) as (tail & Htr & Hl).
  destruct (logs_only_no_requests tail Hl) as (Hmr & _).
  eexists (model_requests _), (feedback_request env q' _).
  split; [|reflexivity].
  rewrite Htr.
  match goal with
  | |- context [EvChat ?r :: tail] => change (EvChat r :: tail) with ([EvChat r] ++ tail)
  end.
  rewrite !model_requests_app, Hmr. simpl. rewrite app_nil_r. reflexivity.
Qed.

Lemma enhance_keeps_every_hit_witness :
  let env := mock_env (scripted_model (Json.text "{'translation': 'quantum'}")
                                      three_questions)
                      unreachable
                      (fun _ => Json.decode
                         (Json.text "{'results': [{'title': 'T', 'url': 'u', 'content': 'c'}, {'title': 'E', 'content': '', 'published_date': '2025'}], 'answer': 'a'}")) in
  fst (enhance env cjk_query true [])
  = Normal (PStr (py "quantum"),
            py "\n\nHere is some background information about the topic:\n<content>\n\nc\n</content><content>\n2025\n\n</content>a").
Proof.
  intros env.
  destruct (enhance_keeps_every_hit env cjk_query [])
    as (q' & t1 & d & items & mds & context & Ht & Hs & Hd & Hm & _ & Hctx & He & _).
  vm_compute in Ht. injection Ht as <- <-.
  vm_compute in Hs. injection Hs as <-.
  vm_compute in Hd. injection Hd as <-.
  destruct mds as [|m1 [|m2 [|m3 mds]]]; try discriminate Hm.
  vm_compute in Hm. injection Hm as <- <-.
  rewrite He, Hctx. vm_compute. reflexivity.
Defined.

(** ** app.py, further *)

Lemma lstrip_nil_iff s : lstrip s = [] <-> forallb is_space s = true.
Proof.
  induction s as [|c s IH]; simpl; [tauto|].
  destruct (is_space c); simpl; [exact IH|]. split; discriminate.
Qed.

Lemma forallb_rev {A} (f : A -> bool) l : forallb f (rev l) = forallb f l.
Proof.
  induction l as [|x l IH]; [reflexivity|].
  simpl. rewrite forallb_app, IH. simpl. rewrite andb_true_r. apply andb_comm.
Qed.

Lemma lstrip_head s c r : lstrip s = c :: r -> is_space c = false.
Proof.
  induction s as [|x s IH]; simpl; [discriminate|].
  destruct (is_space x) eqn:E; [exact IH|].
  intros H. injection H as <- _. exact E.
Qed.

Lemma strip_nil_iff s : strip s = [] <-> forallb is_space s = true.
Proof.
  unfold strip. split.
  - intros H. apply lstrip_nil_iff.
    destruct (lstrip s) as [|c r] eqn:E; [reflexivity|].
    exfalso. pose proof (lstrip_head s c r E) as Hc.
    apply (f_equal (@rev _)) in H. rewrite rev_involutive in H. simpl in H.
    apply lstrip_nil_iff in H. rewrite forallb_app in H. simpl in H.
    rewrite Hc, andb_false_r in H. discriminate.
  - intros H. apply lstrip_nil_iff in H. rewrite H. reflexivity.
Qed.

Lemma is_valid_answer_ink a : is_valid_answer a = has_ink a.
Proof.
  unfold is_valid_answer, has_ink. destruct a as [|c a]; [reflexivity|].
  unfold pystr_eqb. destruct (pystr_eq_dec (strip (c :: a)) []) as [E|E].
  - apply strip_nil_iff in E. 
    destruct (existsb (fun x => negb (is_space x)) (c :: a)) eqn:Ex; [|reflexivity].
    apply existsb_exists in Ex. destruct Ex as (x & Hin & Hx).
    rewrite forallb_forall in E. rewrite (E x Hin) in Hx. discriminate.
  - destruct (existsb (fun x => negb (is_space x)) (c :: a)) eqn:Ex; [reflexivity|].
    exfalso. apply E, strip_nil_iff, forallb_forall. intros x Hin.
    destruct (is_space x) eqn:Hx; [reflexivity|].
    assert (existsb (fun x => negb (is_space x)) (c :: a) = true).
    { apply existsb_exists. exists x. rewrite Hx. auto. }
    congruence.
Qed.

(** [on_start_research_async] stores exactly the answers that hold a
    character other than white space, in their order, keeps the query and
    the questions, and records language, breadth and depth. *)
Theorem on_start_research_async_stores
        (session : ResearchSession.t) (answers : list pystr)
        (lang : pystr) (breadth depth : Z) :
  let s := on_start_research_async session answers lang breadth depth in
  ResearchSession.answers s = filter has_ink answers
  /\ ResearchSession.query s = ResearchSession.query session
  /\ ResearchSession.questions s = ResearchSession.questions session
  /\ ResearchSession.report_language s = lang
  /\ ResearchSession.breadth s = breadth
  /\ ResearchSession.depth s = depth.
Proof.
  simpl. repeat split. apply filter_ext. intros a. apply is_valid_answer_ink.
Qed.

Lemma filter_ink_answers ans k :
  Forall (fun a => has_ink a = true) ans ->
  filter has_ink (ans ++ repeat [] k) = ans.
Proof.
  intros H. induction H as [|a l Ha Hl IH]; simpl.
  - induction k as [|k IHk]; [reflexivity | exact IHk].
  - rewrite Ha. f_equal. exact IH.
Qed.

(** When each of the n questions gets an answer that is not blank, and the
    remaining answer boxes are empty, the stored answers are the ones given
    and the combined query pairs every question with its own answer. *)
Theorem answered_questions_round_trip
        (session : ResearchSession.t) (ans : list pystr) (k : nat)
        (lang : pystr) (breadth depth : Z) :
  Forall (fun a => has_ink a = true) ans ->
  length ans = length (ResearchSession.questions session) ->
  let s := on_start_research_async session (ans ++ repeat [] k) lang breadth depth in
  ResearchSession.answers s = ans
  /\ ResearchSession.get_combined_query s
     = py "Initial Query: " ++ ResearchSession.query session
       ++ py "\nFollow-up Questions and Answers:\n"
       ++ join (py "\n")
            (map ResearchSession.qa_block
                 (combine (ResearchSession.questions session) ans))
  /\ map fst (combine (ResearchSession.questions session) ans)
     = ResearchSession.questions session
  /\ map snd (combine (ResearchSession.questions session) ans) = ans.
Proof.
  intros Hink Hlen s.
  assert (Ha : ResearchSession.answers s = ans).
  { subst s. simpl.
    rewrite (filter_ext _ _ is_valid_answer_ink). apply filter_ink_answers, Hink. }
  split; [exact Ha|]. split.
  - unfold ResearchSession.get_combined_query. rewrite Ha. reflexivity.
  - clear Ha s Hink. revert ans Hlen.
    induction (ResearchSession.questions session) as [|q qs IH]; intros [|a ans] Hlen;
      try discriminate Hlen; [split; reflexivity|].
    simpl in Hlen. injection Hlen as Hlen. destruct (IH ans Hlen) as [H1 H2].
    simpl. rewrite H1, H2. split; reflexivity.
Qed.

Lemma answered_questions_round_trip_witness :
  let session := ResearchSession.set_questions
                   (ResearchSession.set_query ResearchSession.init (py "Topic"))
                   [py "Q1"; py "Q2"] in
  let s := on_start_research_async session
             ([py "A1"; py " A2 "] ++ repeat [] 8) (py "en") 4 2 in
  ResearchSession.answers s = [py "A1"; py " A2 "]
  /\ ResearchSession.get_combined_query s
     = py "Initial Query: Topic\nFollow-up Questions and Answers:\nQ: Q1\nA: A1\nQ: Q2\nA:  A2 ".
Proof.
  intros session s.
  destruct (answered_questions_round_trip session [py "A1"; py " A2 "] 8 (py "en") 4 2)
    as (Ha & Hq & _).
  - repeat constructor.
  - reflexivity.
  - split; [exact Ha|]. etransitivity; [exact Hq|]. vm_compute. reflexivity.
Defined.

(** When every answer is blank, nothing is stored and the combined query is
    the two framing lines alone, whatever the questions. *)
Theorem blank_answers_leave_header_only
        (session : ResearchSession.t) (answers : list pystr)
        (lang : pystr) (breadth depth : Z) :
  Forall (fun a => has_ink a = false) answers ->
  let s := on_start_research_async session answers lang breadth depth in
  ResearchSession.answers s = []
  /\ ResearchSession.get_combined_query s
     = py "Initial Query: " ++ ResearchSession.query session
       ++ py "\nFollow-up Questions and Answers:\n".
Proof.
  intros H s.
  assert (Ha : ResearchSession.answers s = []).
  { subst s. simpl. rewrite (filter_ext _ _ is_valid_answer_ink).
    induction H as [|a l Ha Hl IH]; [reflexivity|]. simpl. rewrite Ha. exact IH. }
  split; [exact Ha|].
  unfold ResearchSession.get_combined_query. rewrite Ha.
  replace (combine (ResearchSession.questions s) []) with (@nil (pystr * pystr))
    by (destruct (ResearchSession.questions s); reflexivity).
  reflexivity.
Qed.

Lemma blank_answers_leave_header_only_witness :
  let session := ResearchSession.set_questions
                   (ResearchSession.set_query ResearchSession.init (py "Topic"))
                   [py "Q1"; py "Q2"] in
  let s := on_start_research_async session [py "  "; []; [9; 0x3000]%N] (py "zh") 4 2 in
  ResearchSession.answers s = []
  /\ ResearchSession.get_combined_query s
     = py "Initial Query: Topic\nFollow-up Questions and Answers:\n".
Proof.
  intros session s.
  apply (blank_answers_leave_header_only session [py "  "; []; [9; 0x3000]%N] (py "zh") 4 2).
  repeat constructor.
Defined.





(** Questions that have no length (the JSON [null], a number, a boolean)
    make the handler fail with [TypeError]: it happens when the model
    answers with such a [questions] entry. *)
Theorem question_outputs_type_error (env : Env) (questions : pyval) (t : trace) :
  raises (py_len questions) = true ->
  exists e, fst (question_outputs env questions t) = Raise e /\ exn_cls e = TypeError.
Proof.
  intros H. unfold question_outputs.
  destruct questions as [|b|n| | | |attrs]; try discriminate H.
  - eexists. split; reflexivity.
  - destruct b; eexists; split; reflexivity.
  - unfold truthy. destruct (n =? 0)%Z; eexists; split; reflexivity.
  - eexists. split; reflexivity.
Qed.

Lemma question_outputs_type_error_witness :
  let env := mock_env (reply_with (Json.text "{'questions': null}")) unreachable unreachable in
  result_of (generate_feedback env (py "Topic") false) = Normal PNone
  /\ raises (py_len PNone) = true
  /\ exists e, fst (question_outputs env PNone []) = Raise e /\ exn_cls e = TypeError.
Proof.
  intros env.
  split; [vm_compute; reflexivity|]. split; [reflexivity|].
  apply (question_outputs_type_error env PNone []). reflexivity.
Defined.
